(** * libavif, [src/scale.c]: a shallow embedding of [avifImageScale]

    The C function rescales the planes of an [avifImage] in place.  It talks to
    collaborators that live outside [scale.c]: the plane allocator
    [avifImageAllocatePlanes], the pixel-format table [avifGetPixelFormatInfo],
    libyuv's [ScalePlane] / [ScalePlane_16], and [avifFree] /
    [avifDiagnosticsPrintf].  The embedding threads a state made of the image
    and a chronological log of the collaborator calls; the allocator and the
    format table are parameters of the development. *)

From Stdlib Require Import ZArith List String Bool Lia.
Import ListNotations.
Local Open Scope Z_scope.

(** ** Machine data *)

(** [uint32_t]: a [Z] together with the range predicate; arithmetic that can
    leave the range is wrapped explicitly with [wrap32]. *)
Definition UINT32_MAX : Z := 2 ^ 32 - 1.
Definition is_uint32 (z : Z) : Prop := 0 <= z <= UINT32_MAX.
Definition wrap32 (z : Z) : Z := z mod 2 ^ 32.

(** [int], and what a [uint32_t] argument becomes when it is handed to an
    [int] parameter: the value with the same 32 bits. *)
Definition INT_MAX : Z := 2 ^ 31 - 1.
Definition to_int (z : Z) : Z := (z + 2 ^ 31) mod 2 ^ 32 - 2 ^ 31.

(** [avifBool] with [AVIF_TRUE] and [AVIF_FALSE]. *)
Definition avifBool := bool.
Definition AVIF_TRUE : avifBool := true.
Definition AVIF_FALSE : avifBool := false.

(** [uint8_t *]: an address, [NULL] being address 0.  [ptr_set p] is the C
    truth value of the pointer [p]. *)
Definition ptr := Z.
Definition NULL : ptr := 0.
Definition ptr_set (p : ptr) : bool := negb (p =? NULL).

(** [AVIF_CHAN_Y], [AVIF_CHAN_U], [AVIF_CHAN_V]: the indices 0, 1, 2 of the
    YUV plane arrays, [AVIF_PLANE_COUNT_YUV] = 3. *)
Inductive avifChannelIndex : Type :=
| AVIF_CHAN_Y
| AVIF_CHAN_U
| AVIF_CHAN_V.

Definition is_CHAN_Y (i : avifChannelIndex) : bool :=
  match i with AVIF_CHAN_Y => true | _ => false end.

(** The index range of [for (int i = 0; i < AVIF_PLANE_COUNT_YUV; ++i)]. *)
Definition yuv_indices : list avifChannelIndex :=
  [AVIF_CHAN_Y; AVIF_CHAN_U; AVIF_CHAN_V].

(** A C array [T a[AVIF_PLANE_COUNT_YUV]]. *)
Record array3 (A : Type) : Type := mkArray3 { at_Y : A; at_U : A; at_V : A }.
Arguments mkArray3 {A} _ _ _.
Arguments at_Y {A} _.
Arguments at_U {A} _.
Arguments at_V {A} _.

Definition aget {A} (a : array3 A) (i : avifChannelIndex) : A :=
  match i with
  | AVIF_CHAN_Y => at_Y a
  | AVIF_CHAN_U => at_U a
  | AVIF_CHAN_V => at_V a
  end.

Definition aset {A} (a : array3 A) (i : avifChannelIndex) (v : A) : array3 A :=
  match i with
  | AVIF_CHAN_Y => mkArray3 v (at_U a) (at_V a)
  | AVIF_CHAN_U => mkArray3 (at_Y a) v (at_V a)
  | AVIF_CHAN_V => mkArray3 (at_Y a) (at_U a) v
  end.

(** [avifPixelFormat] is a C enum, hence an integer. *)
Definition avifPixelFormat := Z.

(** The two fields of [avifPixelFormatInfo] that [scale.c] reads (both [int]). *)
Record avifPixelFormatInfo : Type := mkFormatInfo {
  chromaShiftX : Z;
  chromaShiftY : Z
}.

(** [avifPlanesFlags]: the plane group handed to the allocator. *)
Inductive avifPlanesFlags : Type :=
| AVIF_PLANES_YUV
| AVIF_PLANES_A.

(** libyuv's [FilterModeEnum]. *)
Inductive FilterModeEnum : Type :=
| kFilterNone
| kFilterLinear
| kFilterBilinear
| kFilterBox.

(** [#define AVIF_LIBYUV_FILTER_MODE kFilterBox] *)
Definition AVIF_LIBYUV_FILTER_MODE : FilterModeEnum := kFilterBox.

(** The fields of [avifImage] that [scale.c] touches. *)
Record avifImage : Type := mkImage {
  width : Z;
  height : Z;
  depth : Z;
  yuvFormat : avifPixelFormat;
  yuvPlanes : array3 ptr;
  yuvRowBytes : array3 Z;
  imageOwnsYUVPlanes : avifBool;
  alphaPlane : ptr;
  alphaRowBytes : Z;
  imageOwnsAlphaPlane : avifBool
}.

(** ** Collaborator calls

    Every call that leaves [scale.c] is logged, with its arguments, in the
    order in which it is made.  A diagnostic is logged as its format string
    and the values of its [%u] arguments. *)
Inductive Event : Type :=
| EvDiagnosticsPrintf (fmt : string) (args : list Z)
| EvAllocatePlanes (planes : avifPlanesFlags)
| EvScalePlane (src : ptr) (srcStride srcW srcH : Z)
               (dst : ptr) (dstStride dstW dstH : Z) (filtering : FilterModeEnum)
| EvScalePlane_16 (src : ptr) (srcStride srcW srcH : Z)
                  (dst : ptr) (dstStride dstW dstH : Z) (filtering : FilterModeEnum)
| EvFree (p : ptr).

(** ** The state monad of the embedding *)

Record State : Type := mkState {
  st_image : avifImage;   (* the object behind [avifImage * image] *)
  st_log : list Event     (* collaborator calls made so far *)
}.

Definition M (A : Type) : Type := State -> A * State.

Definition ret {A} (a : A) : M A := fun s => (a, s).

Definition bind {A B} (m : M A) (k : A -> M B) : M B :=
  fun s => let (a, s') := m s in k a s'.

Notation "x <- m ;; k" := (bind m (fun x => k))
  (at level 61, m at next level, right associativity).
Notation "m ;;; k" := (bind m (fun _ => k))
  (at level 61, right associativity).

(** Reading [image->f]. *)
Definition load {A} (f : avifImage -> A) : M A :=
  fun s => (f (st_image s), s).

(** Writing through [image->...]. *)
Definition store (upd : avifImage -> avifImage) : M unit :=
  fun s => (tt, mkState (upd (st_image s)) (st_log s)).

Definition emit (e : Event) : M unit :=
  fun s => (tt, mkState (st_image s) (st_log s ++ [e])).

(** A [for] loop over the indices [idx] whose body updates the locals [l]. *)
Fixpoint for_each {I L} (idx : list I) (body : I -> L -> M L) (l : L) : M L :=
  match idx with
  | [] => ret l
  | i :: rest => l' <- body i l ;; for_each rest body l'
  end.

(** Field assignments. *)
Definition set_width (v : Z) (im : avifImage) : avifImage :=
  mkImage v (height im) (depth im) (yuvFormat im) (yuvPlanes im) (yuvRowBytes im)
          (imageOwnsYUVPlanes im) (alphaPlane im) (alphaRowBytes im)
          (imageOwnsAlphaPlane im).
Definition set_height (v : Z) (im : avifImage) : avifImage :=
  mkImage (width im) v (depth im) (yuvFormat im) (yuvPlanes im) (yuvRowBytes im)
          (imageOwnsYUVPlanes im) (alphaPlane im) (alphaRowBytes im)
          (imageOwnsAlphaPlane im).
Definition set_yuvPlane (i : avifChannelIndex) (v : ptr) (im : avifImage) : avifImage :=
  mkImage (width im) (height im) (depth im) (yuvFormat im)
          (aset (yuvPlanes im) i v) (yuvRowBytes im)
          (imageOwnsYUVPlanes im) (alphaPlane im) (alphaRowBytes im)
          (imageOwnsAlphaPlane im).
Definition set_yuvRowBytes (i : avifChannelIndex) (v : Z) (im : avifImage) : avifImage :=
  mkImage (width im) (height im) (depth im) (yuvFormat im)
          (yuvPlanes im) (aset (yuvRowBytes im) i v)
          (imageOwnsYUVPlanes im) (alphaPlane im) (alphaRowBytes im)
          (imageOwnsAlphaPlane im).
Definition set_imageOwnsYUVPlanes (v : avifBool) (im : avifImage) : avifImage :=
  mkImage (width im) (height im) (depth im) (yuvFormat im) (yuvPlanes im) (yuvRowBytes im)
          v (alphaPlane im) (alphaRowBytes im) (imageOwnsAlphaPlane im).
Definition set_alphaPlane (v : ptr) (im : avifImage) : avifImage :=
  mkImage (width im) (height im) (depth im) (yuvFormat im) (yuvPlanes im) (yuvRowBytes im)
          (imageOwnsYUVPlanes im) v (alphaRowBytes im) (imageOwnsAlphaPlane im).
Definition set_alphaRowBytes (v : Z) (im : avifImage) : avifImage :=
  mkImage (width im) (height im) (depth im) (yuvFormat im) (yuvPlanes im) (yuvRowBytes im)
          (imageOwnsYUVPlanes im) (alphaPlane im) v (imageOwnsAlphaPlane im).
Definition set_imageOwnsAlphaPlane (v : avifBool) (im : avifImage) : avifImage :=
  mkImage (width im) (height im) (depth im) (yuvFormat im) (yuvPlanes im) (yuvRowBytes im)
          (imageOwnsYUVPlanes im) (alphaPlane im) (alphaRowBytes im) v.

(** ** Calls into the collaborators *)

Definition avifDiagnosticsPrintf (fmt : string) (args : list Z) : M unit :=
  emit (EvDiagnosticsPrintf fmt args).

Definition avifFree (p : ptr) : M unit := emit (EvFree p).

(** libyuv declares the strides, widths and heights of [ScalePlane] and
    [ScalePlane_16] as [int]; [scale.c] passes [uint32_t] values, which are
    converted at the call.  The log keeps what the callee receives. *)
Definition ScalePlane (src : ptr) (srcStride srcW srcH : Z)
    (dst : ptr) (dstStride dstW dstH : Z) (filtering : FilterModeEnum) : M unit :=
  emit (EvScalePlane src (to_int srcStride) (to_int srcW) (to_int srcH)
                     dst (to_int dstStride) (to_int dstW) (to_int dstH)
                     filtering).

Definition ScalePlane_16 (src : ptr) (srcStride srcW srcH : Z)
    (dst : ptr) (dstStride dstW dstH : Z) (filtering : FilterModeEnum) : M unit :=
  emit (EvScalePlane_16 src (to_int srcStride) (to_int srcW) (to_int srcH)
                        dst (to_int dstStride) (to_int dstW) (to_int dstH)
                        filtering).

(** The diagnostics of [scale.c]. *)
Definition msg_unimplemented : string :=
  "avifImageScale() called, but is unimplemented without libyuv!"%string.
Definition msg_invalid_dst : string :=
  "avifImageScale requested invalid dst dimensions [%ux%u]"%string.
Definition msg_too_large : string :=
  "avifImageScale requested dst dimensions that are too large [%ux%u]"%string.
Definition msg_invalid_width : string :=
  "avifImageScale requested invalid width scale for libyuv [%u -> %u]"%string.
Definition msg_invalid_height : string :=
  "avifImageScale requested invalid height scale for libyuv [%u -> %u]"%string.

(** ** The build without libyuv ([!defined(AVIF_LIBYUV_ENABLED)]) *)
Module NoLibyuv.

Definition avifImageScale (dstWidth dstHeight imageSizeLimit : Z) : M avifBool :=
  avifDiagnosticsPrintf msg_unimplemented [] ;;;
  ret AVIF_FALSE.

End NoLibyuv.

(** ** The build with libyuv *)

(** The expression [(dim + shift) >> shift] of lines 91-94; [dim] is a
    [uint32_t] and the sum is taken in [uint32_t]. *)
Definition uv_dimension (dim shift : Z) : Z :=
  Z.shiftr (wrap32 (dim + shift)) shift.

(** The test [dstWidth > (imageSizeLimit / dstHeight)] of line 45; on
    [uint32_t] values the truncating division of C is [Z.div]. *)
Definition exceeds_limit (dstWidth dstHeight imageSizeLimit : Z) : bool :=
  (imageSizeLimit / dstHeight) <? dstWidth.

(** ** Sample collaborators, for the examples

    A format table in the manner of libavif's (formats 1 to 4 standing for
    4:4:4, 4:2:2, 4:2:0 and 4:0:0), and an allocator that hands out fixed
    addresses with tightly packed rows and takes ownership. *)
Definition sample_formatInfo (format : avifPixelFormat) : avifPixelFormatInfo :=
  if format =? 1 then mkFormatInfo 0 0
  else if format =? 2 then mkFormatInfo 1 0
  else mkFormatInfo 1 1.

Definition sample_allocatePlanes (log : list Event) (im : avifImage)
    (planes : avifPlanesFlags) : avifImage :=
  let channelSize := if 8 <? depth im then 2 else 1 in
  let fullRowBytes := channelSize * width im in
  let info := sample_formatInfo (yuvFormat im) in
  let uvRowBytes := channelSize * uv_dimension (width im) (chromaShiftX info) in
  match planes with
  | AVIF_PLANES_YUV =>
      mkImage (width im) (height im) (depth im) (yuvFormat im)
              (mkArray3 4096 8192 12288) (mkArray3 fullRowBytes uvRowBytes uvRowBytes)
              AVIF_TRUE (alphaPlane im) (alphaRowBytes im) (imageOwnsAlphaPlane im)
  | AVIF_PLANES_A =>
      mkImage (width im) (height im) (depth im) (yuvFormat im)
              (yuvPlanes im) (yuvRowBytes im) (imageOwnsYUVPlanes im)
              16384 fullRowBytes AVIF_TRUE
  end.

(** A 4:2:0 image of 8-bit samples, 7x5, that owns its three YUV planes and
    its alpha plane. *)
Definition sample_image : avifImage :=
  mkImage 7 5 8 3 (mkArray3 100 200 300) (mkArray3 7 4 4) AVIF_TRUE
          400 7 AVIF_TRUE.

(** The same image with borrowed planes and 10-bit samples. *)
Definition sample_image_borrowed : avifImage :=
  mkImage 7 5 10 3 (mkArray3 100 200 300) (mkArray3 14 8 8) AVIF_FALSE
          400 14 AVIF_FALSE.

(** A 20000x20000 image with all its planes. *)
Definition sample_huge_image : avifImage :=
  mkImage 20000 20000 8 3 (mkArray3 100 200 300) (mkArray3 20000 10000 10000)
          AVIF_TRUE 400 20000 AVIF_TRUE.

(** An image 20000 pixels wide whose only buffer is an owned chroma plane. *)
Definition chroma_only_wide_image : avifImage :=
  mkImage 20000 10 8 3 (mkArray3 NULL 200 NULL) (mkArray3 0 10000 0) AVIF_TRUE
          NULL 0 AVIF_FALSE.

(** An image whose luma buffer is absent while a chroma buffer and the alpha
    buffer are present and owned. *)
Definition chroma_and_alpha_image : avifImage :=
  mkImage 8 8 8 3 (mkArray3 NULL 200 NULL) (mkArray3 0 4 0) AVIF_TRUE
          400 8 AVIF_TRUE.

(** An image whose two chroma planes are one and the same owned buffer. *)
Definition aliased_chroma_image : avifImage :=
  mkImage 8 8 8 3 (mkArray3 100 200 200) (mkArray3 8 4 4) AVIF_TRUE
          NULL 0 AVIF_FALSE.

(** The 8-bit sample image with a luma row stride of [UINT32_MAX] bytes. *)
Definition huge_stride_image : avifImage :=
  mkImage 7 5 8 3 (mkArray3 100 200 300) (mkArray3 4294967295 4 4) AVIF_TRUE
          400 7 AVIF_TRUE.

(** ** Vocabulary of the statements *)

(** [dim] divided by [2^shift], rounded up. *)
Definition div_round_up (dim shift : Z) : Z :=
  (dim + 2 ^ shift - 1) / 2 ^ shift.

(** The source buffer a resampling call reads. *)
Definition resample_source (e : Event) : option ptr :=
  match e with
  | EvScalePlane src _ _ _ _ _ _ _ _ => Some src
  | EvScalePlane_16 src _ _ _ _ _ _ _ _ => Some src
  | _ => None
  end.

Definition is_resample (e : Event) : bool :=
  match resample_source e with Some _ => true | None => false end.

Definition is_free_of (p : ptr) (e : Event) : bool :=
  match e with EvFree q => q =? p | _ => false end.

Definition is_diagnostic (e : Event) : bool :=
  match e with EvDiagnosticsPrintf _ _ => true | _ => false end.

(** How many times [p] is handed to [avifFree] in [log]. *)
Definition release_count (p : ptr) (log : list Event) : nat :=
  List.length (filter (is_free_of p) log).


(** The source width and height a resampling call is given. *)
Definition resample_src_dims (e : Event) : option (Z * Z) :=
  match e with
  | EvScalePlane _ _ srcW srcH _ _ _ _ _ => Some (srcW, srcH)
  | EvScalePlane_16 _ _ srcW srcH _ _ _ _ _ => Some (srcW, srcH)
  | _ => None
  end.

(** The destination width and height a resampling call is given. *)
Definition resample_dst_dims (e : Event) : option (Z * Z) :=
  match e with
  | EvScalePlane _ _ _ _ _ _ dstW dstH _ => Some (dstW, dstH)
  | EvScalePlane_16 _ _ _ _ _ _ dstW dstH _ => Some (dstW, dstH)
  | _ => None
  end.

Definition is_allocate (e : Event) : bool :=
  match e with EvAllocatePlanes _ => true | _ => false end.

(** [e] is a resampling call that reads the buffer [p]. *)
Definition reads (p : ptr) (e : Event) : bool :=
  match resample_source e with Some q => q =? p | None => false end.

(** No resampling call of [log] reads a buffer that an earlier call of [log]
    has released. *)
Fixpoint no_read_after_free (log : list Event) : bool :=
  match log with
  | [] => true
  | EvFree p :: rest =>
      forallb (fun e => negb (reads p e)) rest && no_read_after_free rest
  | _ :: rest => no_read_after_free rest
  end.

(** The buffers an image presents: its non-null plane pointers. *)
Definition present_buffers (im : avifImage) : list ptr :=
  filter ptr_set
    [aget (yuvPlanes im) AVIF_CHAN_Y; aget (yuvPlanes im) AVIF_CHAN_U;
     aget (yuvPlanes im) AVIF_CHAN_V; alphaPlane im].

(** The data-model invariant on the luma/chroma group: its three planes are
    present together or not at all. *)
Definition yuv_planes_together (im : avifImage) : Prop :=
  forall i j,
    ptr_set (aget (yuvPlanes im) i) = ptr_set (aget (yuvPlanes im) j).

(** Validation of lines 36-48 lets the request through to the detachment. *)
Definition passes_validation (im : avifImage)
    (dstWidth dstHeight imageSizeLimit : Z) : Prop :=
  (width im <> dstWidth \/ height im <> dstHeight) /\
  dstWidth <> 0 /\ dstHeight <> 0 /\
  exceeds_limit dstWidth dstHeight imageSizeLimit = false.

Section WithCollaborators.

(** [avifGetPixelFormatInfo(format, &info)]: the format table. *)
Variable avifGetPixelFormatInfo : avifPixelFormat -> avifPixelFormatInfo.

(** [avifImageAllocatePlanes(image, planes)]: what the allocator makes of the
    image, given the calls made so far. *)
Variable allocatePlanes : list Event -> avifImage -> avifPlanesFlags -> avifImage.

Definition avifImageAllocatePlanes (planes : avifPlanesFlags) : M unit :=
  fun s =>
    (tt, mkState (allocatePlanes (st_log s) (st_image s) planes)
                 (st_log s ++ [EvAllocatePlanes planes])).

(** Lines 52-57: one round of the detaching loop; the locals are
    [srcYUVPlanes] and [srcYUVRowBytes]. *)
Definition detach_plane (i : avifChannelIndex) (l : array3 ptr * array3 Z)
  : M (array3 ptr * array3 Z) :=
  let (srcYUVPlanes, srcYUVRowBytes) := l in
  p <- load (fun im => aget (yuvPlanes im) i) ;;
  store (set_yuvPlane i NULL) ;;;
  rb <- load (fun im => aget (yuvRowBytes im) i) ;;
  store (set_yuvRowBytes i 0) ;;;
  ret (aset srcYUVPlanes i p, aset srcYUVRowBytes i rb).

(** Lines 97-121: one round of the scaling loop. *)
Definition scale_yuv_plane (srcYUVPlanes : array3 ptr) (srcYUVRowBytes : array3 Z)
    (srcImageOwnsYUVPlanes : avifBool)
    (srcWidth srcHeight srcUVWidth srcUVHeight : Z)
    (dstWidth dstHeight dstUVWidth dstUVHeight : Z)
    (i : avifChannelIndex) (_ : unit) : M unit :=
  if negb (ptr_set (aget srcYUVPlanes i)) then
    ret tt (* continue *)
  else
    let srcW := if is_CHAN_Y i then srcWidth else srcUVWidth in
    let srcH := if is_CHAN_Y i then srcHeight else srcUVHeight in
    let dstW := if is_CHAN_Y i then dstWidth else dstUVWidth in
    let dstH := if is_CHAN_Y i then dstHeight else dstUVHeight in
    d <- load depth ;;
    (if 8 <? d then
       let srcPlane := aget srcYUVPlanes i in
       let srcStride := aget srcYUVRowBytes i / 2 in
       dstPlane <- load (fun im => aget (yuvPlanes im) i) ;;
       dstRowBytes <- load (fun im => aget (yuvRowBytes im) i) ;;
       let dstStride := dstRowBytes / 2 in
       ScalePlane_16 srcPlane srcStride srcW srcH dstPlane dstStride dstW dstH
                     AVIF_LIBYUV_FILTER_MODE
     else
       let srcPlane := aget srcYUVPlanes i in
       let srcStride := aget srcYUVRowBytes i in
       dstPlane <- load (fun im => aget (yuvPlanes im) i) ;;
       dstStride <- load (fun im => aget (yuvRowBytes im) i) ;;
       ScalePlane srcPlane srcStride srcW srcH dstPlane dstStride dstW dstH
                  AVIF_LIBYUV_FILTER_MODE) ;;;
    (if srcImageOwnsYUVPlanes then avifFree (aget srcYUVPlanes i) else ret tt).

(** Lines 86-123. *)
Definition scale_yuv_group (srcYUVPlanes : array3 ptr) (srcYUVRowBytes : array3 Z)
    (srcImageOwnsYUVPlanes : avifBool)
    (srcWidth srcHeight dstWidth dstHeight : Z) : M unit :=
  if ptr_set (aget srcYUVPlanes AVIF_CHAN_Y) then
    avifImageAllocatePlanes AVIF_PLANES_YUV ;;;
    fmt <- load yuvFormat ;;
    let formatInfo := avifGetPixelFormatInfo fmt in
    let srcUVWidth := uv_dimension srcWidth (chromaShiftX formatInfo) in
    let srcUVHeight := uv_dimension srcHeight (chromaShiftY formatInfo) in
    let dstUVWidth := uv_dimension dstWidth (chromaShiftX formatInfo) in
    let dstUVHeight := uv_dimension dstHeight (chromaShiftY formatInfo) in
    for_each yuv_indices
      (scale_yuv_plane srcYUVPlanes srcYUVRowBytes srcImageOwnsYUVPlanes
         srcWidth srcHeight srcUVWidth srcUVHeight
         dstWidth dstHeight dstUVWidth dstUVHeight) tt
  else ret tt.

(** Lines 125-145. *)
Definition scale_alpha (srcAlphaPlane : ptr) (srcAlphaRowBytes : Z)
    (srcImageOwnsAlphaPlane : avifBool)
    (srcWidth srcHeight dstWidth dstHeight : Z) : M unit :=
  if ptr_set srcAlphaPlane then
    avifImageAllocatePlanes AVIF_PLANES_A ;;;
    d <- load depth ;;
    (if 8 <? d then
       let srcPlane := srcAlphaPlane in
       let srcStride := srcAlphaRowBytes / 2 in
       dstPlane <- load alphaPlane ;;
       dstRowBytes <- load alphaRowBytes ;;
       let dstStride := dstRowBytes / 2 in
       ScalePlane_16 srcPlane srcStride srcWidth srcHeight
                     dstPlane dstStride dstWidth dstHeight AVIF_LIBYUV_FILTER_MODE
     else
       let srcPlane := srcAlphaPlane in
       let srcStride := srcAlphaRowBytes in
       dstPlane <- load alphaPlane ;;
       dstStride <- load alphaRowBytes ;;
       ScalePlane srcPlane srcStride srcWidth srcHeight
                  dstPlane dstStride dstWidth dstHeight AVIF_LIBYUV_FILTER_MODE) ;;;
    (if srcImageOwnsAlphaPlane then avifFree srcAlphaPlane else ret tt)
  else ret tt.

(** Lines 34-148.  Each early [return] is the end of its branch; [scaling]
    is the code from line 86 on, reached past or around the guard of line 73. *)
Definition avifImageScale (dstWidth dstHeight imageSizeLimit : Z) : M avifBool :=
  w0 <- load width ;;
  h0 <- load height ;;
  if (w0 =? dstWidth) && (h0 =? dstHeight) then
    (* Nothing to do *)
    ret AVIF_TRUE
  else if (dstWidth =? 0) || (dstHeight =? 0) then
    avifDiagnosticsPrintf msg_invalid_dst [dstWidth; dstHeight] ;;;
    ret AVIF_FALSE
  else if exceeds_limit dstWidth dstHeight imageSizeLimit then
    avifDiagnosticsPrintf msg_too_large [dstWidth; dstHeight] ;;;
    ret AVIF_FALSE
  else
    src <- for_each yuv_indices detach_plane
             (mkArray3 NULL NULL NULL, mkArray3 0 0 0) ;;
    let srcYUVPlanes := fst src in
    let srcYUVRowBytes := snd src in
    srcImageOwnsYUVPlanes <- load imageOwnsYUVPlanes ;;
    store (set_imageOwnsYUVPlanes AVIF_FALSE) ;;;
    srcAlphaPlane <- load alphaPlane ;;
    store (set_alphaPlane NULL) ;;;
    srcAlphaRowBytes <- load alphaRowBytes ;;
    store (set_alphaRowBytes 0) ;;;
    srcImageOwnsAlphaPlane <- load imageOwnsAlphaPlane ;;
    store (set_imageOwnsAlphaPlane AVIF_FALSE) ;;;
    srcWidth <- load width ;;
    store (set_width dstWidth) ;;;
    srcHeight <- load height ;;
    store (set_height dstHeight) ;;;
    let scaling :=
      scale_yuv_group srcYUVPlanes srcYUVRowBytes srcImageOwnsYUVPlanes
                      srcWidth srcHeight dstWidth dstHeight ;;;
      scale_alpha srcAlphaPlane srcAlphaRowBytes srcImageOwnsAlphaPlane
                  srcWidth srcHeight dstWidth dstHeight ;;;
      ret AVIF_TRUE in
    if ptr_set (aget srcYUVPlanes AVIF_CHAN_Y) || ptr_set srcAlphaPlane then
      if 16384 <? srcWidth then
        avifDiagnosticsPrintf msg_invalid_width [srcWidth; dstWidth] ;;;
        ret AVIF_FALSE
      else if 16384 <? srcHeight then
        avifDiagnosticsPrintf msg_invalid_height [srcHeight; dstHeight] ;;;
        ret AVIF_FALSE
      else scaling
    else scaling.

(** A call on [image] with an empty log: the returned flag, the image as the
    call leaves it, and the collaborator calls it made. *)
Definition run_avifImageScale (image : avifImage)
    (dstWidth dstHeight imageSizeLimit : Z) : avifBool * State :=
  avifImageScale dstWidth dstHeight imageSizeLimit (mkState image []).

(** *** The scaling phase as a list of calls

    [im] is the image on entry, [im1] the image while the planes are
    resampled. The lemmas below show that a run makes exactly these calls. *)

(** The image as lines 52-71 leave it. *)
Definition detached (im : avifImage) (dstWidth dstHeight : Z) : avifImage :=
  mkImage dstWidth dstHeight (depth im) (yuvFormat im)
          (mkArray3 NULL NULL NULL) (mkArray3 0 0 0) AVIF_FALSE
          NULL 0 AVIF_FALSE.

(** The guard of line 73 applies. *)
Definition guarded (im : avifImage) : bool :=
  ptr_set (aget (yuvPlanes im) AVIF_CHAN_Y) || ptr_set (alphaPlane im).

Definition resample_call (d : Z) (src : ptr) (srcRowBytes srcW srcH : Z)
    (dst : ptr) (dstRowBytes dstW dstH : Z) : Event :=
  if 8 <? d then
    EvScalePlane_16 src (to_int (srcRowBytes / 2)) (to_int srcW) (to_int srcH)
                    dst (to_int (dstRowBytes / 2)) (to_int dstW) (to_int dstH)
                    AVIF_LIBYUV_FILTER_MODE
  else
    EvScalePlane src (to_int srcRowBytes) (to_int srcW) (to_int srcH)
                 dst (to_int dstRowBytes) (to_int dstW) (to_int dstH)
                 AVIF_LIBYUV_FILTER_MODE.

Definition release_call (owns : avifBool) (p : ptr) : list Event :=
  if owns then [EvFree p] else [].

Definition yuv_plane_calls (im im1 : avifImage) (dstWidth dstHeight : Z)
    (i : avifChannelIndex) : list Event :=
  let p := aget (yuvPlanes im) i in
  let info := avifGetPixelFormatInfo (yuvFormat im1) in
  let pick (luma chroma : Z) := if is_CHAN_Y i then luma else chroma in
  if ptr_set p then
    resample_call (depth im1) p (aget (yuvRowBytes im) i)
      (pick (width im) (uv_dimension (width im) (chromaShiftX info)))
      (pick (height im) (uv_dimension (height im) (chromaShiftY info)))
      (aget (yuvPlanes im1) i) (aget (yuvRowBytes im1) i)
      (pick dstWidth (uv_dimension dstWidth (chromaShiftX info)))
      (pick dstHeight (uv_dimension dstHeight (chromaShiftY info)))
    :: release_call (imageOwnsYUVPlanes im) p
  else [].

Definition after_yuv (im : avifImage) (dstWidth dstHeight : Z) : avifImage :=
  if ptr_set (aget (yuvPlanes im) AVIF_CHAN_Y) then
    allocatePlanes [] (detached im dstWidth dstHeight) AVIF_PLANES_YUV
  else detached im dstWidth dstHeight.

Definition yuv_group_calls (im : avifImage) (dstWidth dstHeight : Z) : list Event :=
  if ptr_set (aget (yuvPlanes im) AVIF_CHAN_Y) then
    EvAllocatePlanes AVIF_PLANES_YUV
    :: flat_map (yuv_plane_calls im (after_yuv im dstWidth dstHeight) dstWidth dstHeight)
                yuv_indices
  else [].

Definition after_alpha (im : avifImage) (dstWidth dstHeight : Z) : avifImage :=
  if ptr_set (alphaPlane im) then
    allocatePlanes (yuv_group_calls im dstWidth dstHeight)
                   (after_yuv im dstWidth dstHeight) AVIF_PLANES_A
  else after_yuv im dstWidth dstHeight.

Definition alpha_calls (im : avifImage) (dstWidth dstHeight : Z) : list Event :=
  let im2 := after_alpha im dstWidth dstHeight in
  if ptr_set (alphaPlane im) then
    EvAllocatePlanes AVIF_PLANES_A
    :: resample_call (depth im2) (alphaPlane im) (alphaRowBytes im)
         (width im) (height im) (alphaPlane im2) (alphaRowBytes im2)
         dstWidth dstHeight
    :: release_call (imageOwnsAlphaPlane im) (alphaPlane im)
  else [].

(** ** The run, branch by branch *)

Lemma dims_differ_eqb (im : avifImage) (dstWidth dstHeight : Z) :
  width im <> dstWidth \/ height im <> dstHeight ->
  (width im =? dstWidth) && (height im =? dstHeight) = false.
Proof.
  intros [H | H]; apply andb_false_iff; [left | right];
    now apply Z.eqb_neq.
Qed.

Lemma dst_nonzero_eqb (dstWidth dstHeight : Z) :
  dstWidth <> 0 -> dstHeight <> 0 ->
  (dstWidth =? 0) || (dstHeight =? 0) = false.
Proof.
  intros Hw Hh. apply orb_false_iff; split; now apply Z.eqb_neq.
Qed.

Ltac run_unfold :=
  unfold run_avifImageScale, avifImageScale;
  cbn -[Z.eqb Z.ltb Z.div Z.mul exceeds_limit ptr_set uv_dimension].

Lemma run_noop (im : avifImage) (dstWidth dstHeight imageSizeLimit : Z) :
  width im = dstWidth -> height im = dstHeight ->
  run_avifImageScale im dstWidth dstHeight imageSizeLimit
  = (AVIF_TRUE, mkState im []).
Proof.
  intros <- <-. run_unfold. now rewrite !Z.eqb_refl.
Qed.

Lemma run_invalid_dst (im : avifImage) (dstWidth dstHeight imageSizeLimit : Z) :
  width im <> dstWidth \/ height im <> dstHeight ->
  dstWidth = 0 \/ dstHeight = 0 ->
  run_avifImageScale im dstWidth dstHeight imageSizeLimit
  = (AVIF_FALSE,
     mkState im [EvDiagnosticsPrintf msg_invalid_dst [dstWidth; dstHeight]]).
Proof.
  intros Hd Hz. run_unfold. rewrite (dims_differ_eqb _ _ _ Hd).
  replace ((dstWidth =? 0) || (dstHeight =? 0)) with true; [reflexivity |].
  symmetry; apply orb_true_iff.
  destruct Hz as [-> | ->]; [left | right]; reflexivity.
Qed.

Lemma run_too_large (im : avifImage) (dstWidth dstHeight imageSizeLimit : Z) :
  width im <> dstWidth \/ height im <> dstHeight ->
  dstWidth <> 0 -> dstHeight <> 0 ->
  exceeds_limit dstWidth dstHeight imageSizeLimit = true ->
  run_avifImageScale im dstWidth dstHeight imageSizeLimit
  = (AVIF_FALSE,
     mkState im [EvDiagnosticsPrintf msg_too_large [dstWidth; dstHeight]]).
Proof.
  intros Hd Hw Hh Hl. run_unfold.
  now rewrite (dims_differ_eqb _ _ _ Hd), (dst_nonzero_eqb _ _ Hw Hh), Hl.
Qed.

Ltac run_validated Hv :=
  let Hd := fresh in let Hw := fresh in let Hh := fresh in let Hl := fresh in
  destruct Hv as (Hd & Hw & Hh & Hl);
  apply dims_differ_eqb in Hd; cbn [width height] in Hd;
  run_unfold;
  rewrite Hd, (dst_nonzero_eqb _ _ Hw Hh), Hl;
  cbn -[Z.eqb Z.ltb Z.div Z.mul exceeds_limit ptr_set uv_dimension].

Lemma run_guard_width (im : avifImage) (dstWidth dstHeight imageSizeLimit : Z) :
  passes_validation im dstWidth dstHeight imageSizeLimit ->
  guarded im = true ->
  16384 < width im ->
  run_avifImageScale im dstWidth dstHeight imageSizeLimit
  = (AVIF_FALSE,
     mkState (detached im dstWidth dstHeight)
             [EvDiagnosticsPrintf msg_invalid_width [width im; dstWidth]]).
Proof.
  intros Hv Hg Hlt. unfold guarded in Hg. cbn [aget] in Hg. run_validated Hv.
  rewrite Hg. apply Z.ltb_lt in Hlt. now rewrite Hlt.
Qed.

Lemma run_guard_height (im : avifImage) (dstWidth dstHeight imageSizeLimit : Z) :
  passes_validation im dstWidth dstHeight imageSizeLimit ->
  guarded im = true ->
  width im <= 16384 ->
  16384 < height im ->
  run_avifImageScale im dstWidth dstHeight imageSizeLimit
  = (AVIF_FALSE,
     mkState (detached im dstWidth dstHeight)
             [EvDiagnosticsPrintf msg_invalid_height [height im; dstHeight]]).
Proof.
  intros Hv Hg Hle Hlt. unfold guarded in Hg. cbn [aget] in Hg. run_validated Hv.
  rewrite Hg. apply Z.ltb_ge in Hle. apply Z.ltb_lt in Hlt.
  now rewrite Hle, Hlt.
Qed.

(** One round of the scaling loop appends its calls and leaves the image. *)
Lemma scale_yuv_plane_run (srcYUVPlanes : array3 ptr) (srcYUVRowBytes : array3 Z)
    (owns : avifBool) (sw sh suw suh dw dh duw duh : Z)
    (i : avifChannelIndex) (s : State) :
  scale_yuv_plane srcYUVPlanes srcYUVRowBytes owns sw sh suw suh dw dh duw duh i tt s
  = (tt,
     mkState (st_image s)
       (st_log s ++
        if ptr_set (aget srcYUVPlanes i) then
          resample_call (depth (st_image s))
            (aget srcYUVPlanes i) (aget srcYUVRowBytes i)
            (if is_CHAN_Y i then sw else suw) (if is_CHAN_Y i then sh else suh)
            (aget (yuvPlanes (st_image s)) i) (aget (yuvRowBytes (st_image s)) i)
            (if is_CHAN_Y i then dw else duw) (if is_CHAN_Y i then dh else duh)
          :: release_call owns (aget srcYUVPlanes i)
        else [])).
Proof.
  destruct s as [im log]. unfold scale_yuv_plane, resample_call, release_call.
  destruct (ptr_set (aget srcYUVPlanes i)); cbn -[Z.ltb Z.div].
  - destruct (8 <? depth im), owns; cbn -[Z.div];
      unfold avifFree, emit, ret; cbn -[Z.div];
      rewrite <- ?app_assoc; reflexivity.
  - now rewrite app_nil_r.
Qed.

Lemma scale_yuv_group_run (im : avifImage) (dstWidth dstHeight : Z) :
  scale_yuv_group (yuvPlanes im) (yuvRowBytes im) (imageOwnsYUVPlanes im)
    (width im) (height im) dstWidth dstHeight
    (mkState (detached im dstWidth dstHeight) [])
  = (tt,
     mkState (after_yuv im dstWidth dstHeight)
             (yuv_group_calls im dstWidth dstHeight)).
Proof.
  unfold scale_yuv_group, yuv_group_calls, yuv_plane_calls, after_yuv.
  destruct (ptr_set (aget (yuvPlanes im) AVIF_CHAN_Y)) eqn:E; [| reflexivity].
  unfold bind at 1. cbn [avifImageAllocatePlanes st_log st_image app].
  unfold bind at 1. cbn [load st_image].
  unfold yuv_indices at 1. cbn [for_each]. unfold bind.
  rewrite !scale_yuv_plane_run.
  unfold yuv_indices, ret.
  cbn [st_image st_log flat_map is_CHAN_Y].
  rewrite app_nil_r, <- !app_assoc. reflexivity.
Qed.

Lemma scale_alpha_run (im im1 : avifImage) (log : list Event)
    (dstWidth dstHeight : Z) :
  scale_alpha (alphaPlane im) (alphaRowBytes im) (imageOwnsAlphaPlane im)
    (width im) (height im) dstWidth dstHeight (mkState im1 log)
  = (tt,
     if ptr_set (alphaPlane im) then
       let im2 := allocatePlanes log im1 AVIF_PLANES_A in
       mkState im2
         (log ++
          EvAllocatePlanes AVIF_PLANES_A
          :: resample_call (depth im2) (alphaPlane im) (alphaRowBytes im)
               (width im) (height im) (alphaPlane im2) (alphaRowBytes im2)
               dstWidth dstHeight
          :: release_call (imageOwnsAlphaPlane im) (alphaPlane im))
     else mkState im1 log).
Proof.
  unfold scale_alpha, resample_call, release_call.
  destruct (ptr_set (alphaPlane im)); [| reflexivity].
  cbn -[Z.ltb Z.div].
  destruct (8 <? depth (allocatePlanes log im1 AVIF_PLANES_A)),
    (imageOwnsAlphaPlane im); cbn -[Z.div];
    unfold avifFree, emit, ret; cbn -[Z.div];
    rewrite <- ?app_assoc; reflexivity.
Qed.

(** Past validation and the guard, the run makes the calls listed above. *)
Lemma run_scaling (im : avifImage) (dstWidth dstHeight imageSizeLimit : Z) :
  passes_validation im dstWidth dstHeight imageSizeLimit ->
  (guarded im = true -> width im <= 16384 /\ height im <= 16384) ->
  run_avifImageScale im dstWidth dstHeight imageSizeLimit
  = (AVIF_TRUE,
     mkState (after_alpha im dstWidth dstHeight)
             (yuv_group_calls im dstWidth dstHeight
              ++ alpha_calls im dstWidth dstHeight)).
Proof.
  intros Hv Hg. unfold guarded in Hg.
  destruct im as [w h d f [pY pU pV] [rY rU rV] oy pa ra oa].
  cbn [aget yuvPlanes alphaPlane at_Y width height] in Hg.
  run_validated Hv.
  set (im := mkImage w h d f (mkArray3 pY pU pV) (mkArray3 rY rU rV) oy pa ra oa).
  assert (Hskip :
    forall (k : M avifBool) (s : State),
      (if ptr_set pY || ptr_set pa
       then if 16384 <? w
            then avifDiagnosticsPrintf msg_invalid_width [w; dstWidth];;;
                 ret AVIF_FALSE
            else if 16384 <? h
                 then avifDiagnosticsPrintf msg_invalid_height
                        [h; dstHeight];;; ret AVIF_FALSE
                 else k
       else k) s = k s).
  { intros k s.
    destruct (ptr_set pY || ptr_set pa); [| reflexivity].
    destruct (Hg eq_refl) as [Hw Hh].
    apply Z.ltb_ge in Hw, Hh. now rewrite Hw, Hh. }
  rewrite Hskip. clear Hskip Hg.
  transitivity
    ((scale_yuv_group (yuvPlanes im) (yuvRowBytes im) (imageOwnsYUVPlanes im)
        (width im) (height im) dstWidth dstHeight ;;;
      scale_alpha (alphaPlane im) (alphaRowBytes im) (imageOwnsAlphaPlane im)
        (width im) (height im) dstWidth dstHeight ;;;
      ret AVIF_TRUE) (mkState (detached im dstWidth dstHeight) []));
    [reflexivity |].
  unfold bind at 1.
  rewrite (scale_yuv_group_run im dstWidth dstHeight).
  unfold bind at 1.
  rewrite (scale_alpha_run im (after_yuv im dstWidth dstHeight)
             (yuv_group_calls im dstWidth dstHeight) dstWidth dstHeight).
  unfold ret, alpha_calls, after_alpha.
  destruct (ptr_set (alphaPlane im)); [reflexivity |].
  now rewrite app_nil_r.
Qed.

(** Every run takes exactly one of the six ways through the function. *)
Lemma run_classify (im : avifImage) (dstWidth dstHeight imageSizeLimit : Z) :
  let r := run_avifImageScale im dstWidth dstHeight imageSizeLimit in
  (width im = dstWidth /\ height im = dstHeight /\
   r = (AVIF_TRUE, mkState im []))
  \/ ((width im <> dstWidth \/ height im <> dstHeight) /\
      (dstWidth = 0 \/ dstHeight = 0) /\
      r = (AVIF_FALSE,
           mkState im [EvDiagnosticsPrintf msg_invalid_dst [dstWidth; dstHeight]]))
  \/ ((width im <> dstWidth \/ height im <> dstHeight) /\
      dstWidth <> 0 /\ dstHeight <> 0 /\
      exceeds_limit dstWidth dstHeight imageSizeLimit = true /\
      r = (AVIF_FALSE,
           mkState im [EvDiagnosticsPrintf msg_too_large [dstWidth; dstHeight]]))
  \/ (passes_validation im dstWidth dstHeight imageSizeLimit /\
      guarded im = true /\ 16384 < width im /\
      r = (AVIF_FALSE,
           mkState (detached im dstWidth dstHeight)
             [EvDiagnosticsPrintf msg_invalid_width [width im; dstWidth]]))
  \/ (passes_validation im dstWidth dstHeight imageSizeLimit /\
      guarded im = true /\ width im <= 16384 /\ 16384 < height im /\
      r = (AVIF_FALSE,
           mkState (detached im dstWidth dstHeight)
             [EvDiagnosticsPrintf msg_invalid_height [height im; dstHeight]]))
  \/ (passes_validation im dstWidth dstHeight imageSizeLimit /\
      (guarded im = true -> width im <= 16384 /\ height im <= 16384) /\
      r = (AVIF_TRUE,
           mkState (after_alpha im dstWidth dstHeight)
                   (yuv_group_calls im dstWidth dstHeight
                    ++ alpha_calls im dstWidth dstHeight))).
Proof.
  intros r. subst r.
  assert (Hsame : (width im = dstWidth /\ height im = dstHeight)
                  \/ (width im <> dstWidth \/ height im <> dstHeight)) by lia.
  destruct Hsame as [[Ew Eh] | Hd]; [left; auto using run_noop | right].
  assert (Hzero : (dstWidth = 0 \/ dstHeight = 0)
                  \/ (dstWidth <> 0 /\ dstHeight <> 0)) by lia.
  destruct Hzero as [Hz | [Zw Zh]]; [left; auto using run_invalid_dst | right].
  destruct (exceeds_limit dstWidth dstHeight imageSizeLimit) eqn:El;
    [left; auto 6 using run_too_large | right].
  assert (Hv : passes_validation im dstWidth dstHeight imageSizeLimit)
    by (unfold passes_validation; auto).
  destruct (guarded im) eqn:Eg.
  - destruct (Z.ltb_spec 16384 (width im));
      [left; auto using run_guard_width | right].
    destruct (Z.ltb_spec 16384 (height im));
      [left; auto 6 using run_guard_height | right].
    split; [exact Hv |]. split; [intros _; lia |].
    apply run_scaling; [exact Hv | intros _; lia].
  - right; right.
    split; [exact Hv |]. split; [intros Hg; discriminate Hg |].
    apply run_scaling; [exact Hv | rewrite Eg; intros Hg; discriminate Hg].
Qed.

(** *** What the call lists contain *)

Lemma resample_source_call (d : Z) (src : ptr) (srcRowBytes srcW srcH : Z)
    (dst : ptr) (dstRowBytes dstW dstH : Z) :
  resample_source
    (resample_call d src srcRowBytes srcW srcH dst dstRowBytes dstW dstH)
  = Some src.
Proof. unfold resample_call. now destruct (8 <? d). Qed.

Lemma resample_call_not_free (d : Z) (src : ptr) (srcRowBytes srcW srcH : Z)
    (dst : ptr) (dstRowBytes dstW dstH : Z) (p : ptr) :
  resample_call d src srcRowBytes srcW srcH dst dstRowBytes dstW dstH
  <> EvFree p.
Proof. unfold resample_call. now destruct (8 <? d). Qed.

Lemma resample_call_not_diagnostic (d : Z) (src : ptr) (srcRowBytes srcW srcH : Z)
    (dst : ptr) (dstRowBytes dstW dstH : Z) (fmt : string) (args : list Z) :
  resample_call d src srcRowBytes srcW srcH dst dstRowBytes dstW dstH
  <> EvDiagnosticsPrintf fmt args.
Proof. unfold resample_call. now destruct (8 <? d). Qed.

Lemma resample_call_not_allocate (d : Z) (src : ptr) (srcRowBytes srcW srcH : Z)
    (dst : ptr) (dstRowBytes dstW dstH : Z) (planes : avifPlanesFlags) :
  resample_call d src srcRowBytes srcW srcH dst dstRowBytes dstW dstH
  <> EvAllocatePlanes planes.
Proof. unfold resample_call. now destruct (8 <? d). Qed.

Lemma in_release_call (owns : avifBool) (p : ptr) (e : Event) :
  In e (release_call owns p) -> owns = true /\ e = EvFree p.
Proof.
  unfold release_call. destruct owns; cbn; [| tauto].
  intros [<- | []]. auto.
Qed.

(** An event of the luma/chroma group is the allocation, the resampling of a
    present plane, or the release of a present and owned plane. *)
Lemma in_yuv_group_calls (im : avifImage) (dstWidth dstHeight : Z) (e : Event) :
  In e (yuv_group_calls im dstWidth dstHeight) ->
  ptr_set (aget (yuvPlanes im) AVIF_CHAN_Y) = true /\
  (e = EvAllocatePlanes AVIF_PLANES_YUV
   \/ exists i, ptr_set (aget (yuvPlanes im) i) = true /\
        (resample_source e = Some (aget (yuvPlanes im) i)
         \/ (imageOwnsYUVPlanes im = true /\ e = EvFree (aget (yuvPlanes im) i)))).
Proof.
  unfold yuv_group_calls.
  destruct (ptr_set (aget (yuvPlanes im) AVIF_CHAN_Y)); [| intros []].
  intros [<- | Hin]; split; auto. right.
  apply in_flat_map in Hin. destruct Hin as (i & _ & Hin).
  exists i. unfold yuv_plane_calls in Hin.
  destruct (ptr_set (aget (yuvPlanes im) i)); [| destruct Hin].
  split; [reflexivity |].
  destruct Hin as [<- | Hin].
  - left. apply resample_source_call.
  - right. now apply in_release_call in Hin.
Qed.

Lemma in_alpha_calls (im : avifImage) (dstWidth dstHeight : Z) (e : Event) :
  In e (alpha_calls im dstWidth dstHeight) ->
  ptr_set (alphaPlane im) = true /\
  (e = EvAllocatePlanes AVIF_PLANES_A
   \/ resample_source e = Some (alphaPlane im)
   \/ (imageOwnsAlphaPlane im = true /\ e = EvFree (alphaPlane im))).
Proof.
  unfold alpha_calls.
  destruct (ptr_set (alphaPlane im)); [| intros []].
  intros [<- | [<- | Hin]]; split; auto.
  - right; left. apply resample_source_call.
  - right; right. now apply in_release_call in Hin.
Qed.

Lemma scaling_calls_no_diagnostic (im : avifImage) (dstWidth dstHeight : Z)
    (fmt : string) (args : list Z) :
  ~ In (EvDiagnosticsPrintf fmt args)
       (yuv_group_calls im dstWidth dstHeight ++ alpha_calls im dstWidth dstHeight).
Proof.
  intros Hin. apply in_app_or in Hin. destruct Hin as [Hin | Hin].
  - apply in_yuv_group_calls in Hin.
    destruct Hin as (_ & [H | (i & _ & [H | [_ H]])]); discriminate H.
  - apply in_alpha_calls in Hin.
    destruct Hin as (_ & [H | [H | [_ H]]]); discriminate H.
Qed.

(** *** Counting releases *)








(** *** Releases come right after the resampling *)





(** *** Distinct buffers *)

Lemma present_buffers_in_yuv (im : avifImage) (i : avifChannelIndex) :
  ptr_set (aget (yuvPlanes im) i) = true ->
  In (aget (yuvPlanes im) i) (present_buffers im).
Proof.
  intros Hi. unfold present_buffers. apply filter_In. split; [| exact Hi].
  destruct i; cbn; auto.
Qed.

Lemma present_buffers_in_alpha (im : avifImage) :
  ptr_set (alphaPlane im) = true -> In (alphaPlane im) (present_buffers im).
Proof.
  intros Ha. unfold present_buffers. apply filter_In. split; [| exact Ha].
  cbn; auto.
Qed.



(** *** The log of a run *)

Lemma run_log_shape (im : avifImage) (dstWidth dstHeight imageSizeLimit : Z) :
  let r := run_avifImageScale im dstWidth dstHeight imageSizeLimit in
  st_log (snd r) = []
  \/ (exists fmt args, st_log (snd r) = [EvDiagnosticsPrintf fmt args])
  \/ st_log (snd r)
     = yuv_group_calls im dstWidth dstHeight ++ alpha_calls im dstWidth dstHeight.
Proof.
  intros r. subst r.
  destruct (run_classify im dstWidth dstHeight imageSizeLimit)
    as [(_ & _ & ->) | [(_ & _ & ->) | [(_ & _ & _ & _ & ->)
       | [(_ & _ & _ & ->) | [(_ & _ & _ & _ & ->) | (_ & _ & ->)]]]]];
    cbn [snd st_log]; eauto.
Qed.

Lemma run_success_validated (im : avifImage)
    (dstWidth dstHeight imageSizeLimit : Z) :
  passes_validation im dstWidth dstHeight imageSizeLimit ->
  fst (run_avifImageScale im dstWidth dstHeight imageSizeLimit) = AVIF_TRUE ->
  run_avifImageScale im dstWidth dstHeight imageSizeLimit
  = (AVIF_TRUE,
     mkState (after_alpha im dstWidth dstHeight)
             (yuv_group_calls im dstWidth dstHeight
              ++ alpha_calls im dstWidth dstHeight)).
Proof.
  intros Hv Hok.
  destruct (run_classify im dstWidth dstHeight imageSizeLimit)
    as [(Ew & Eh & _) | [(_ & Hz & _) | [(_ & _ & _ & El & _)
       | [(_ & _ & _ & E) | [(_ & _ & _ & _ & E) | (_ & _ & E)]]]]].
  - destruct Hv as (Hd & _). tauto.
  - destruct Hv as (_ & Zw & Zh & _). tauto.
  - destruct Hv as (_ & _ & _ & El'). congruence.
  - rewrite E in Hok. discriminate Hok.
  - rewrite E in Hok. discriminate Hok.
  - exact E.
Qed.



(** *** Resampling calls in the log *)

Lemma is_resample_call (d : Z) (src : ptr) (srcRowBytes srcW srcH : Z)
    (dst : ptr) (dstRowBytes dstW dstH : Z) :
  is_resample
    (resample_call d src srcRowBytes srcW srcH dst dstRowBytes dstW dstH)
  = true.
Proof. unfold is_resample. now rewrite resample_source_call. Qed.

Lemma no_resample_in_release_call (owns : avifBool) (p : ptr) :
  filter is_resample (release_call owns p) = [].
Proof. now destruct owns. Qed.

Lemma in_yuv_group_resample (im : avifImage) (dstWidth dstHeight : Z)
    (i : avifChannelIndex) :
  ptr_set (aget (yuvPlanes im) AVIF_CHAN_Y) = true ->
  ptr_set (aget (yuvPlanes im) i) = true ->
  let im1 := allocatePlanes [] (detached im dstWidth dstHeight) AVIF_PLANES_YUV in
  exists srcW srcH dstW dstH,
    In (resample_call (depth im1) (aget (yuvPlanes im) i) (aget (yuvRowBytes im) i)
          srcW srcH (aget (yuvPlanes im1) i) (aget (yuvRowBytes im1) i) dstW dstH)
       (yuv_group_calls im dstWidth dstHeight).
Proof.
  intros HY Hi im1. unfold yuv_group_calls, after_yuv. rewrite HY. fold im1.
  do 4 eexists. right. apply in_flat_map. exists i. split.
  - destruct i; cbn; auto.
  - unfold yuv_plane_calls. rewrite Hi. left. reflexivity.
Qed.

Lemma in_alpha_resample (im : avifImage) (dstWidth dstHeight : Z) :
  ptr_set (alphaPlane im) = true ->
  let im2 := after_alpha im dstWidth dstHeight in
  In (resample_call (depth im2) (alphaPlane im) (alphaRowBytes im)
        (width im) (height im) (alphaPlane im2) (alphaRowBytes im2)
        dstWidth dstHeight)
     (alpha_calls im dstWidth dstHeight).
Proof.
  intros Ha im2. unfold alpha_calls. rewrite Ha. fold im2. right; left.
  reflexivity.
Qed.

Lemma resample_call_wide (d : Z) (src : ptr) (srcRowBytes srcW srcH : Z)
    (dst : ptr) (dstRowBytes dstW dstH : Z) :
  8 < d ->
  resample_call d src srcRowBytes srcW srcH dst dstRowBytes dstW dstH
  = EvScalePlane_16 src (to_int (srcRowBytes / 2)) (to_int srcW) (to_int srcH)
      dst (to_int (dstRowBytes / 2)) (to_int dstW) (to_int dstH)
      AVIF_LIBYUV_FILTER_MODE.
Proof. intros H. unfold resample_call. apply Z.ltb_lt in H. now rewrite H. Qed.

Lemma resample_call_narrow (d : Z) (src : ptr) (srcRowBytes srcW srcH : Z)
    (dst : ptr) (dstRowBytes dstW dstH : Z) :
  d <= 8 ->
  resample_call d src srcRowBytes srcW srcH dst dstRowBytes dstW dstH
  = EvScalePlane src (to_int srcRowBytes) (to_int srcW) (to_int srcH)
      dst (to_int dstRowBytes) (to_int dstW) (to_int dstH)
      AVIF_LIBYUV_FILTER_MODE.
Proof. intros H. unfold resample_call. apply Z.ltb_ge in H. now rewrite H. Qed.

(** *** The conversion to [int] *)

Lemma to_int_small (z : Z) : 0 <= z <= INT_MAX -> to_int z = z.
Proof.
  unfold to_int, INT_MAX. intros H.
  rewrite Z.mod_small by lia. lia.
Qed.

Lemma to_int_half (z : Z) : is_uint32 z -> to_int (z / 2) = z / 2.
Proof.
  unfold is_uint32, UINT32_MAX. intros H. apply to_int_small.
  unfold INT_MAX. split.
  - apply Z.div_pos; lia.
  - assert (z / 2 < 2 ^ 31) by (apply Z.div_lt_upper_bound; lia). lia.
Qed.


(** Under the invariant an image with a present buffer has its luma buffer
    or its alpha buffer, so that the guard of line 73 applies. *)
Lemma guarded_of_present (im : avifImage) :
  yuv_planes_together im -> present_buffers im <> [] -> guarded im = true.
Proof.
  intros Ht Hne. unfold guarded.
  destruct (ptr_set (aget (yuvPlanes im) AVIF_CHAN_Y)) eqn:EY; [reflexivity |].
  destruct (ptr_set (alphaPlane im)) eqn:EA; [reflexivity |].
  exfalso. apply Hne. unfold present_buffers. cbn [filter].
  rewrite (Ht AVIF_CHAN_U AVIF_CHAN_Y), (Ht AVIF_CHAN_V AVIF_CHAN_Y).
  now rewrite EY, EA.
Qed.

(** The resampling call of a present plane of the luma/chroma group, with
    all its arguments. *)
Lemma in_yuv_group_plane_call (im : avifImage) (dstWidth dstHeight : Z)
    (i : avifChannelIndex) :
  ptr_set (aget (yuvPlanes im) AVIF_CHAN_Y) = true ->
  ptr_set (aget (yuvPlanes im) i) = true ->
  let im1 := allocatePlanes [] (detached im dstWidth dstHeight) AVIF_PLANES_YUV in
  let info := avifGetPixelFormatInfo (yuvFormat im1) in
  let pick (luma chroma : Z) := if is_CHAN_Y i then luma else chroma in
  In (resample_call (depth im1) (aget (yuvPlanes im) i) (aget (yuvRowBytes im) i)
        (pick (width im) (uv_dimension (width im) (chromaShiftX info)))
        (pick (height im) (uv_dimension (height im) (chromaShiftY info)))
        (aget (yuvPlanes im1) i) (aget (yuvRowBytes im1) i)
        (pick dstWidth (uv_dimension dstWidth (chromaShiftX info)))
        (pick dstHeight (uv_dimension dstHeight (chromaShiftY info))))
     (yuv_group_calls im dstWidth dstHeight).
Proof.
  intros HY Hi im1 info pick. unfold yuv_group_calls, after_yuv. rewrite HY.
  fold im1. right. apply in_flat_map. exists i. split.
  - destruct i; cbn; auto.
  - unfold yuv_plane_calls. rewrite Hi. left. reflexivity.
Qed.

Lemma resample_dims_call (d : Z) (src : ptr) (srcRowBytes srcW srcH : Z)
    (dst : ptr) (dstRowBytes dstW dstH : Z) :
  let call :=
    resample_call d src srcRowBytes srcW srcH dst dstRowBytes dstW dstH in
  resample_src_dims call = Some (to_int srcW, to_int srcH)
  /\ resample_dst_dims call = Some (to_int dstW, to_int dstH).
Proof. unfold resample_call. now destruct (8 <? d). Qed.

Lemma ptr_set_NULL : ptr_set NULL = false.
Proof. reflexivity. Qed.

Lemma unguarded_planes (im : avifImage) :
  guarded im = false ->
  ptr_set (aget (yuvPlanes im) AVIF_CHAN_Y) = false
  /\ ptr_set (alphaPlane im) = false.
Proof. unfold guarded. intros H. now apply orb_false_iff in H. Qed.

(** ** The claims *)

(** C3. Rescaling an image to its own width and height returns success and
    leaves the whole image as it was: plane pointers, strides, dimensions and
    both ownership flags; no collaborator is called.  This holds for every
    image and every limit. *)
Theorem rescale_same_dimensions_is_identity (im : avifImage) (imageSizeLimit : Z) :
  run_avifImageScale im (width im) (height im) imageSizeLimit
  = (AVIF_TRUE, mkState im []).
Proof. now apply run_noop. Qed.

(** C9. The equal-dimensions test comes before every validation: when the
    requested dimensions are the current ones the call succeeds, leaves the
    image alone and reports no diagnostic, for every limit (0 included) and
    for all dimensions (0 or beyond 16384 included); none of the tests of
    lines 41-84 is reached. *)
Theorem noop_precedes_validation (im : avifImage)
    (dstWidth dstHeight imageSizeLimit : Z) :
  width im = dstWidth -> height im = dstHeight ->
  let r := run_avifImageScale im dstWidth dstHeight imageSizeLimit in
  fst r = AVIF_TRUE /\
  st_image (snd r) = im /\
  forall e, In e (st_log (snd r)) -> is_diagnostic e = false.
Proof.
  intros Hw Hh r. subst r.
  rewrite (run_noop im dstWidth dstHeight imageSizeLimit Hw Hh). cbn.
  repeat split. intros e [].
Qed.

(** C5. A request with destination width 0 or destination height 0, on an
    image whose dimensions differ from the requested ones, fails with the
    invalid-dimensions diagnostic and leaves every field of the image as it
    was. *)
Theorem zero_destination_rejected (im : avifImage)
    (dstWidth dstHeight imageSizeLimit : Z) :
  width im <> dstWidth \/ height im <> dstHeight ->
  dstWidth = 0 \/ dstHeight = 0 ->
  run_avifImageScale im dstWidth dstHeight imageSizeLimit
  = (AVIF_FALSE,
     mkState im [EvDiagnosticsPrintf msg_invalid_dst [dstWidth; dstHeight]]).
Proof. intros Hd Hz. now apply run_invalid_dst. Qed.

(** C4. For non-zero [uint32_t] destination dimensions and a [uint32_t]
    limit, the test of line 45, [dstWidth > imageSizeLimit / dstHeight] with
    truncating division, holds exactly when the exact product
    [dstWidth * dstHeight] exceeds the limit; on an image of other
    dimensions the call then reports the too-large diagnostic exactly in
    that case.  A 100x100 request fails the test against 9999 and passes it
    against 10000. *)
Theorem limit_test_is_exact_product_test (im : avifImage)
    (dstWidth dstHeight imageSizeLimit : Z) :
  is_uint32 dstWidth -> is_uint32 dstHeight -> is_uint32 imageSizeLimit ->
  dstWidth <> 0 -> dstHeight <> 0 ->
  (exceeds_limit dstWidth dstHeight imageSizeLimit = true
   <-> imageSizeLimit < dstWidth * dstHeight) /\
  (width im <> dstWidth \/ height im <> dstHeight ->
   (In (EvDiagnosticsPrintf msg_too_large [dstWidth; dstHeight])
       (st_log (snd (run_avifImageScale im dstWidth dstHeight imageSizeLimit)))
    <-> imageSizeLimit < dstWidth * dstHeight)) /\
  exceeds_limit 100 100 9999 = true /\
  exceeds_limit 100 100 10000 = false.
Proof.
  unfold is_uint32. intros Hw Hh Hl Zw Zh.
  assert (Hex : exceeds_limit dstWidth dstHeight imageSizeLimit = true
                <-> imageSizeLimit < dstWidth * dstHeight).
  { unfold exceeds_limit. rewrite Z.ltb_lt. split; intros H.
    - destruct (Z.lt_ge_cases imageSizeLimit (dstWidth * dstHeight)) as [| Hge];
        [assumption |].
      assert (dstWidth <= imageSizeLimit / dstHeight)
        by (apply Z.div_le_lower_bound; lia).
      lia.
    - apply Z.div_lt_upper_bound; lia. }
  split; [exact Hex |]. split; [| split; reflexivity].
  intros Hd.
  destruct (run_classify im dstWidth dstHeight imageSizeLimit)
    as [(Ew & Eh & _) | [(_ & Hz & _) | [(_ & _ & _ & El & ->)
       | [(Hv & _ & _ & ->) | [(Hv & _ & _ & _ & ->) | (Hv & _ & ->)]]]]];
    try lia; cbn [snd st_log].
  - split; [intros _; now apply Hex | intros _; now left].
  - destruct Hv as (_ & _ & _ & El). split.
    + intros [H | []]. discriminate H.
    + intros H. apply Hex in H. congruence.
  - destruct Hv as (_ & _ & _ & El). split.
    + intros [H | []]. discriminate H.
    + intros H. apply Hex in H. congruence.
  - destruct Hv as (_ & _ & _ & El). split.
    + intros H. now apply scaling_calls_no_diagnostic in H.
    + intros H. apply Hex in H. congruence.
Qed.

(** C2. For every image that keeps the data-model invariant on its planes
    and has at least one present plane (YUV or alpha), whose source width or
    source height exceeds 16384, a request that passes validation fails; the
    image it leaves has the destination width and height, no plane buffer,
    strides 0 and both ownership flags cleared, and the only collaborator
    call is the diagnostic naming the dimension. *)
Theorem guard_failure_leaves_detached_image (im : avifImage)
    (dstWidth dstHeight imageSizeLimit : Z) :
  yuv_planes_together im ->
  present_buffers im <> [] ->
  16384 < width im \/ 16384 < height im ->
  passes_validation im dstWidth dstHeight imageSizeLimit ->
  let r := run_avifImageScale im dstWidth dstHeight imageSizeLimit in
  let im' := st_image (snd r) in
  fst r = AVIF_FALSE /\
  width im' = dstWidth /\ height im' = dstHeight /\
  (forall i, aget (yuvPlanes im') i = NULL /\ aget (yuvRowBytes im') i = 0) /\
  alphaPlane im' = NULL /\ alphaRowBytes im' = 0 /\
  imageOwnsYUVPlanes im' = AVIF_FALSE /\ imageOwnsAlphaPlane im' = AVIF_FALSE /\
  (st_log (snd r)
     = [EvDiagnosticsPrintf msg_invalid_width [width im; dstWidth]]
   \/ st_log (snd r)
     = [EvDiagnosticsPrintf msg_invalid_height [height im; dstHeight]]).
Proof.
  intros Ht Hpresent Hbig Hv r im'. subst im' r.
  pose proof (guarded_of_present im Ht Hpresent) as Hg.
  destruct (Z.ltb_spec 16384 (width im)) as [Hw | Hw].
  - rewrite (run_guard_width im dstWidth dstHeight imageSizeLimit Hv Hg Hw).
    cbn. repeat split; auto; now destruct i.
  - assert (Hh : 16384 < height im) by lia.
    rewrite (run_guard_height im dstWidth dstHeight imageSizeLimit Hv Hg Hw Hh).
    cbn. repeat split; auto; now destruct i.
Qed.


(** C7 (amended). Every plane that is resampled goes through the entry
    point its sample width calls for, and libyuv receives the strides as
    [int].  In a call that passes validation and succeeds, each present YUV
    plane (the luma plane being present) and the present alpha plane, with
    [uint32_t] row-byte counts, are handed to [ScalePlane_16] with both
    strides equal to the row-byte counts divided by 2 when the depth of the
    image is greater than 8; when it is 8 or less they are handed to
    [ScalePlane] with the row-byte counts converted to [int] as strides,
    which are the row-byte counts themselves when these do not exceed
    [INT_MAX].  Each round of the YUV loop on a present plane and the alpha
    block make exactly that resampling call and no other. *)
Theorem bit_depth_selects_entry_point (im : avifImage)
    (dstWidth dstHeight imageSizeLimit : Z) :
  passes_validation im dstWidth dstHeight imageSizeLimit ->
  fst (run_avifImageScale im dstWidth dstHeight imageSizeLimit) = AVIF_TRUE ->
  let r := run_avifImageScale im dstWidth dstHeight imageSizeLimit in
  let log := st_log (snd r) in
  let im1 := allocatePlanes [] (detached im dstWidth dstHeight) AVIF_PLANES_YUV in
  let im2 := st_image (snd r) in
  (ptr_set (aget (yuvPlanes im) AVIF_CHAN_Y) = true ->
   forall i, ptr_set (aget (yuvPlanes im) i) = true ->
     let srcRowBytes := aget (yuvRowBytes im) i in
     let dstRowBytes := aget (yuvRowBytes im1) i in
     is_uint32 srcRowBytes -> is_uint32 dstRowBytes ->
     exists srcW srcH dstW dstH,
       (8 < depth im1 ->
        In (EvScalePlane_16 (aget (yuvPlanes im) i) (srcRowBytes / 2)
              srcW srcH (aget (yuvPlanes im1) i) (dstRowBytes / 2)
              dstW dstH AVIF_LIBYUV_FILTER_MODE) log) /\
       (depth im1 <= 8 ->
        In (EvScalePlane (aget (yuvPlanes im) i) (to_int srcRowBytes)
              srcW srcH (aget (yuvPlanes im1) i) (to_int dstRowBytes)
              dstW dstH AVIF_LIBYUV_FILTER_MODE) log) /\
       (depth im1 <= 8 -> srcRowBytes <= INT_MAX -> dstRowBytes <= INT_MAX ->
        In (EvScalePlane (aget (yuvPlanes im) i) srcRowBytes
              srcW srcH (aget (yuvPlanes im1) i) dstRowBytes
              dstW dstH AVIF_LIBYUV_FILTER_MODE) log)) /\
  (ptr_set (alphaPlane im) = true ->
   let srcRowBytes := alphaRowBytes im in
   let dstRowBytes := alphaRowBytes im2 in
   is_uint32 srcRowBytes -> is_uint32 dstRowBytes ->
   exists srcW srcH dstW dstH,
     (8 < depth im2 ->
      In (EvScalePlane_16 (alphaPlane im) (srcRowBytes / 2)
            srcW srcH (alphaPlane im2) (dstRowBytes / 2)
            dstW dstH AVIF_LIBYUV_FILTER_MODE) log) /\
     (depth im2 <= 8 ->
      In (EvScalePlane (alphaPlane im) (to_int srcRowBytes)
            srcW srcH (alphaPlane im2) (to_int dstRowBytes)
            dstW dstH AVIF_LIBYUV_FILTER_MODE) log) /\
     (depth im2 <= 8 -> srcRowBytes <= INT_MAX -> dstRowBytes <= INT_MAX ->
      In (EvScalePlane (alphaPlane im) srcRowBytes
            srcW srcH (alphaPlane im2) dstRowBytes
            dstW dstH AVIF_LIBYUV_FILTER_MODE) log)) /\
  (forall (srcYUVPlanes : array3 ptr) (srcYUVRowBytes : array3 Z)
          (owns : avifBool) (sw sh suw suh dw dh duw duh : Z)
          (i : avifChannelIndex) (s : State),
     ptr_set (aget srcYUVPlanes i) = true ->
     let s' := snd (scale_yuv_plane srcYUVPlanes srcYUVRowBytes owns
                      sw sh suw suh dw dh duw duh i tt s) in
     let srcW := to_int (if is_CHAN_Y i then sw else suw) in
     let srcH := to_int (if is_CHAN_Y i then sh else suh) in
     let dstW := to_int (if is_CHAN_Y i then dw else duw) in
     let dstH := to_int (if is_CHAN_Y i then dh else duh) in
     (8 < depth (st_image s) ->
      st_log s'
      = st_log s ++
        EvScalePlane_16 (aget srcYUVPlanes i)
          (to_int (aget srcYUVRowBytes i / 2))
          srcW srcH (aget (yuvPlanes (st_image s)) i)
          (to_int (aget (yuvRowBytes (st_image s)) i / 2)) dstW dstH
          AVIF_LIBYUV_FILTER_MODE
        :: release_call owns (aget srcYUVPlanes i)) /\
     (depth (st_image s) <= 8 ->
      st_log s'
      = st_log s ++
        EvScalePlane (aget srcYUVPlanes i) (to_int (aget srcYUVRowBytes i))
          srcW srcH (aget (yuvPlanes (st_image s)) i)
          (to_int (aget (yuvRowBytes (st_image s)) i)) dstW dstH
          AVIF_LIBYUV_FILTER_MODE
        :: release_call owns (aget srcYUVPlanes i))) /\
  (forall (srcAlphaPlane : ptr) (srcAlphaRowBytes : Z) (owns : avifBool)
          (sw sh dw dh : Z) (s : State),
     ptr_set srcAlphaPlane = true ->
     let s' := snd (scale_alpha srcAlphaPlane srcAlphaRowBytes owns
                      sw sh dw dh s) in
     (8 < depth (st_image s') ->
      st_log s'
      = st_log s ++
        EvAllocatePlanes AVIF_PLANES_A
        :: EvScalePlane_16 srcAlphaPlane (to_int (srcAlphaRowBytes / 2))
             (to_int sw) (to_int sh) (alphaPlane (st_image s'))
             (to_int (alphaRowBytes (st_image s') / 2)) (to_int dw) (to_int dh)
             AVIF_LIBYUV_FILTER_MODE
        :: release_call owns srcAlphaPlane) /\
     (depth (st_image s') <= 8 ->
      st_log s'
      = st_log s ++
        EvAllocatePlanes AVIF_PLANES_A
        :: EvScalePlane srcAlphaPlane (to_int srcAlphaRowBytes)
             (to_int sw) (to_int sh) (alphaPlane (st_image s'))
             (to_int (alphaRowBytes (st_image s'))) (to_int dw) (to_int dh)
             AVIF_LIBYUV_FILTER_MODE
        :: release_call owns srcAlphaPlane)) /\
  (forall z, is_uint32 z -> to_int (z / 2) = z / 2) /\
  (forall z, 0 <= z <= INT_MAX -> to_int z = z).
Proof.
  intros Hv Hok r log im1 im2. subst im2 log r.
  rewrite (run_success_validated im dstWidth dstHeight imageSizeLimit Hv Hok).
  cbn [snd st_log st_image].
  split; [| split; [| split; [| split; [| split]]]].
  - intros HY i Hi Hsrc Hdst.
    destruct (in_yuv_group_resample im dstWidth dstHeight i HY Hi)
      as (srcW & srcH & dstW & dstH & Hin).
    fold im1 in Hin.
    exists (to_int srcW), (to_int srcH), (to_int dstW), (to_int dstH).
    split; [| split]; intros Hd; [| | intros Bs Bd]; apply in_or_app; left.
    + rewrite resample_call_wide in Hin by exact Hd.
      now rewrite !to_int_half in Hin.
    + now rewrite resample_call_narrow in Hin.
    + rewrite resample_call_narrow in Hin by exact Hd.
      unfold is_uint32 in Hsrc, Hdst.
      rewrite (to_int_small (aget (yuvRowBytes im) i)),
        (to_int_small (aget (yuvRowBytes im1) i)) in Hin by lia.
      exact Hin.
  - intros Ha Hsrc Hdst.
    pose proof (in_alpha_resample im dstWidth dstHeight Ha) as Hin.
    cbv zeta in Hin.
    exists (to_int (width im)), (to_int (height im)),
      (to_int dstWidth), (to_int dstHeight).
    split; [| split]; intros Hd; [| | intros Bs Bd]; apply in_or_app; right.
    + rewrite resample_call_wide in Hin by exact Hd.
      now rewrite !to_int_half in Hin.
    + now rewrite resample_call_narrow in Hin.
    + rewrite resample_call_narrow in Hin by exact Hd.
      unfold is_uint32 in Hsrc, Hdst.
      rewrite (to_int_small (alphaRowBytes im)),
        (to_int_small (alphaRowBytes (after_alpha im dstWidth dstHeight)))
        in Hin by lia.
      exact Hin.
  - intros srcYUVPlanes srcYUVRowBytes owns sw sh suw suh dw dh duw duh i s Hi.
    cbv zeta. rewrite scale_yuv_plane_run, Hi. cbn [snd st_log].
    split; intros Hd.
    + now rewrite resample_call_wide.
    + now rewrite resample_call_narrow.
  - intros srcAlphaPlane srcAlphaRowBytes owns sw sh dw dh [im0 log0] Ha.
    pose proof (scale_alpha_run
                  (mkImage sw sh 0 0 (mkArray3 NULL NULL NULL) (mkArray3 0 0 0)
                           AVIF_FALSE srcAlphaPlane srcAlphaRowBytes owns)
                  im0 log0 dw dh) as Hrun.
    cbn [alphaPlane alphaRowBytes imageOwnsAlphaPlane width height] in Hrun.
    cbv zeta. rewrite Hrun, Ha. cbn [snd st_log st_image].
    split; intros Hd.
    + now rewrite resample_call_wide.
    + now rewrite resample_call_narrow.
  - exact to_int_half.
  - exact to_int_small.
Qed.

(** C10. Whether the luma/chroma group is there is decided by the luma
    buffer alone.  When the luma buffer is absent, whatever the chroma
    pointers are, the call never asks the allocator for YUV planes, makes at
    most one resampling call, and any resampling call reads, and any release
    frees, the alpha buffer.  The 16384 guard reports only when the luma
    buffer or the alpha buffer is present; with both absent a validated
    request succeeds without any collaborator call, whatever the source
    dimensions.  In the YUV loop a round on an absent plane changes nothing:
    no resampling, no release. *)
Theorem yuv_group_gated_by_luma (im : avifImage)
    (dstWidth dstHeight imageSizeLimit : Z) :
  let r := run_avifImageScale im dstWidth dstHeight imageSizeLimit in
  let log := st_log (snd r) in
  (aget (yuvPlanes im) AVIF_CHAN_Y = NULL ->
   (List.length (filter is_resample log) <= 1)%nat /\
   forall e, In e log ->
     e <> EvAllocatePlanes AVIF_PLANES_YUV /\
     (forall src, resample_source e = Some src ->
                  src = alphaPlane im /\ ptr_set (alphaPlane im) = true) /\
     (forall p, e = EvFree p ->
                p = alphaPlane im /\ imageOwnsAlphaPlane im = true)) /\
  (forall args,
     In (EvDiagnosticsPrintf msg_invalid_width args) log
     \/ In (EvDiagnosticsPrintf msg_invalid_height args) log ->
     guarded im = true) /\
  (guarded im = false ->
   passes_validation im dstWidth dstHeight imageSizeLimit ->
   r = (AVIF_TRUE, mkState (detached im dstWidth dstHeight) [])) /\
  (forall (srcYUVPlanes : array3 ptr) (srcYUVRowBytes : array3 Z)
          (owns : avifBool) (sw sh suw suh dw dh duw duh : Z)
          (i : avifChannelIndex) (s : State),
     ptr_set (aget srcYUVPlanes i) = false ->
     scale_yuv_plane srcYUVPlanes srcYUVRowBytes owns
       sw sh suw suh dw dh duw duh i tt s = (tt, s)).
Proof.
  intros r log. subst log r. split; [| split; [| split]].
  - intros HY.
    assert (Hyuv : yuv_group_calls im dstWidth dstHeight = [])
      by (unfold yuv_group_calls; now rewrite HY, ptr_set_NULL).
    destruct (run_log_shape im dstWidth dstHeight imageSizeLimit)
      as [-> | [(fmt & args & ->) | ->]].
    + split; [cbn; lia | intros e []].
    + split; [cbn; lia |]. intros e [<- | []].
      repeat split; intros; discriminate.
    + rewrite Hyuv. cbn [app]. split.
      * unfold alpha_calls. destruct (ptr_set (alphaPlane im)); [| cbn; lia].
        cbn [filter is_resample resample_source].
        rewrite is_resample_call, no_resample_in_release_call. cbn; lia.
      * intros e Hin. apply in_alpha_calls in Hin.
        destruct Hin as (Ha & [-> | [Hsrc | [Hown ->]]]).
        -- split; [discriminate |].
           split; [intros src Hs; discriminate Hs | intros p Hp; discriminate Hp].
        -- split; [intros ->; discriminate Hsrc |].
           split; [intros src Hs; split; congruence
                  | intros p ->; discriminate Hsrc].
        -- split; [discriminate |].
           split; [intros src Hs; discriminate Hs
                  | intros p Hp; injection Hp as <-; auto].
  - intros args Hin.
    destruct (run_classify im dstWidth dstHeight imageSizeLimit)
      as [(_ & _ & E) | [(_ & _ & E) | [(_ & _ & _ & _ & E)
         | [(_ & Hg & _) | [(_ & Hg & _) | (_ & _ & E)]]]]];
      try exact Hg; rewrite E in Hin; cbn [snd st_log] in Hin; exfalso.
    + destruct Hin as [[] | []].
    + destruct Hin as [[H | []] | [H | []]]; discriminate H.
    + destruct Hin as [[H | []] | [H | []]]; discriminate H.
    + destruct Hin as [H | H]; now apply scaling_calls_no_diagnostic in H.
  - intros Hg Hv. apply unguarded_planes in Hg. destruct Hg as [HY Ha].
    rewrite run_scaling;
      [| exact Hv | unfold guarded; rewrite HY, Ha; intros H; discriminate H].
    unfold after_alpha, alpha_calls, after_yuv, yuv_group_calls.
    now rewrite HY, Ha.
  - intros srcYUVPlanes srcYUVRowBytes owns sw sh suw suh dw dh duw duh i s Hi.
    rewrite scale_yuv_plane_run, Hi, app_nil_r. now destruct s.
Qed.

(** ** Further properties of the run *)

Lemma ptr_set_not_NULL (p : ptr) : ptr_set p = true -> p <> NULL.
Proof. intros H ->. discriminate H. Qed.

Lemma run_limit_irrelevant (im : avifImage) (dstWidth dstHeight l1 l2 : Z) :
  exceeds_limit dstWidth dstHeight l1 = exceeds_limit dstWidth dstHeight l2 ->
  run_avifImageScale im dstWidth dstHeight l1
  = run_avifImageScale im dstWidth dstHeight l2.
Proof.
  intros H. unfold run_avifImageScale, avifImageScale, bind. cbn [load].
  now rewrite H.
Qed.

(** X1. What decides success.  The call succeeds exactly when the requested
    dimensions are the current ones, or the request passes validation and,
    if the luma or the alpha buffer is present, neither source dimension
    exceeds 16384.  The collaborators have no say in it. *)
Theorem success_decided_by_request (im : avifImage)
    (dstWidth dstHeight imageSizeLimit : Z) :
  fst (run_avifImageScale im dstWidth dstHeight imageSizeLimit) = AVIF_TRUE
  <-> (width im = dstWidth /\ height im = dstHeight)
      \/ (passes_validation im dstWidth dstHeight imageSizeLimit /\
          (guarded im = true -> width im <= 16384 /\ height im <= 16384)).
Proof.
  destruct (run_classify im dstWidth dstHeight imageSizeLimit)
    as [(Ew & Eh & ->) | [(Hd & Hz & ->) | [(Hd & Zw & Zh & El & ->)
       | [(Hv & Hg & Hw & ->) | [(Hv & Hg & Hw & Hh & ->) | (Hv & Hg & ->)]]]]];
    cbn [fst]; split; auto; try discriminate.
  - intros [[Ew Eh] | [(_ & Zw & Zh & _) _]]; exfalso; tauto.
  - intros [[Ew Eh] | [(_ & _ & _ & El') _]]; exfalso; [tauto | congruence].
  - intros [[Ew Eh] | [_ Hb]]; exfalso.
    + destruct Hv as (Hd & _). tauto.
    + specialize (Hb Hg). lia.
  - intros [[Ew Eh] | [_ Hb]]; exfalso.
    + destruct Hv as (Hd & _). tauto.
    + specialize (Hb Hg). lia.
Qed.

(** X2. A call fails exactly when its whole effect on the collaborators is
    one diagnostic; a call that succeeds reports no diagnostic.  So a failing
    call never allocates, resamples or releases anything. *)
Theorem failure_is_one_diagnostic (im : avifImage)
    (dstWidth dstHeight imageSizeLimit : Z) :
  let r := run_avifImageScale im dstWidth dstHeight imageSizeLimit in
  (fst r = AVIF_FALSE
   <-> exists fmt args, st_log (snd r) = [EvDiagnosticsPrintf fmt args])
  /\ (fst r = AVIF_TRUE ->
      forall e, In e (st_log (snd r)) -> is_diagnostic e = false).
Proof.
  intros r. subst r.
  destruct (run_classify im dstWidth dstHeight imageSizeLimit)
    as [(_ & _ & ->) | [(_ & _ & ->) | [(_ & _ & _ & _ & ->)
       | [(_ & _ & _ & ->) | [(_ & _ & _ & _ & ->) | (_ & _ & ->)]]]]];
    cbn [fst snd st_log].
  - split; [split; [discriminate | intros (? & ? & H); discriminate H] |].
    intros _ e [].
  - split; [split; eauto | discriminate].
  - split; [split; eauto | discriminate].
  - split; [split; eauto | discriminate].
  - split; [split; eauto | discriminate].
  - split.
    + split; [discriminate |]. intros (fmt & args & H). exfalso.
      apply (scaling_calls_no_diagnostic im dstWidth dstHeight fmt args).
      rewrite H. now left.
    + intros _ e Hin. destruct e; try reflexivity. exfalso.
      now apply scaling_calls_no_diagnostic in Hin.
Qed.

(** X3. A request that does not pass validation leaves the image exactly as
    it was and calls nothing but the diagnostics sink; it succeeds only as
    the no-op on equal dimensions. *)
Theorem unvalidated_request_leaves_image (im : avifImage)
    (dstWidth dstHeight imageSizeLimit : Z) :
  ~ passes_validation im dstWidth dstHeight imageSizeLimit ->
  let r := run_avifImageScale im dstWidth dstHeight imageSizeLimit in
  st_image (snd r) = im /\
  (fst r = AVIF_TRUE <-> width im = dstWidth /\ height im = dstHeight) /\
  (forall e, In e (st_log (snd r)) -> is_diagnostic e = true).
Proof.
  intros Hnv r. subst r.
  destruct (run_classify im dstWidth dstHeight imageSizeLimit)
    as [(Ew & Eh & ->) | [(Hd & Hz & ->) | [(Hd & Zw & Zh & El & ->)
       | [(Hv & _) | [(Hv & _) | (Hv & _)]]]]];
    try (exfalso; exact (Hnv Hv)); cbn [fst snd st_log st_image].
  - split; [reflexivity |]. split; [tauto | intros e []].
  - split; [reflexivity |]. split.
    + split; [discriminate | tauto].
    + intros e [<- | []]. reflexivity.
  - split; [reflexivity |]. split.
    + split; [discriminate | tauto].
    + intros e [<- | []]. reflexivity.
Qed.

(** X4. The guard tests the width first: with the luma or alpha buffer
    present and a validated request, the width diagnostic is reported exactly
    when the source width exceeds 16384, whatever the height, and the height
    diagnostic exactly when the width is within the bound and the height is
    not. *)
Theorem guard_reports_width_first (im : avifImage)
    (dstWidth dstHeight imageSizeLimit : Z) :
  passes_validation im dstWidth dstHeight imageSizeLimit ->
  guarded im = true ->
  let log := st_log (snd (run_avifImageScale im dstWidth dstHeight
                            imageSizeLimit)) in
  (In (EvDiagnosticsPrintf msg_invalid_width [width im; dstWidth]) log
   <-> 16384 < width im) /\
  (In (EvDiagnosticsPrintf msg_invalid_height [height im; dstHeight]) log
   <-> width im <= 16384 /\ 16384 < height im).
Proof.
  intros Hv Hg log. subst log.
  destruct (Z.ltb_spec 16384 (width im)) as [Hw | Hw].
  - rewrite (run_guard_width im dstWidth dstHeight imageSizeLimit Hv Hg Hw).
    cbn [snd st_log]. split; split; try lia; auto.
    + intros _. now left.
    + intros [H | []]. discriminate H.
  - destruct (Z.ltb_spec 16384 (height im)) as [Hh | Hh].
    + rewrite (run_guard_height im dstWidth dstHeight imageSizeLimit
                 Hv Hg Hw Hh).
      cbn [snd st_log]. split; split; try lia; auto.
      * intros [H | []]. discriminate H.
      * intros _. now left.
    + rewrite run_scaling; [| exact Hv | intros _; lia].
      cbn [snd st_log]. split; split; try lia;
        intros H; now apply scaling_calls_no_diagnostic in H.
Qed.

(** X5. After the guard has failed a call, the same request made again
    succeeds as a no-op: the image already carries the destination
    dimensions, and it keeps having no buffer at all. *)
Theorem retry_after_guard_failure_is_noop (im : avifImage)
    (dstWidth dstHeight imageSizeLimit : Z) :
  passes_validation im dstWidth dstHeight imageSizeLimit ->
  guarded im = true ->
  16384 < width im \/ 16384 < height im ->
  let r1 := run_avifImageScale im dstWidth dstHeight imageSizeLimit in
  let im1 := st_image (snd r1) in
  fst r1 = AVIF_FALSE /\
  present_buffers im1 = [] /\
  run_avifImageScale im1 dstWidth dstHeight imageSizeLimit
  = (AVIF_TRUE, mkState im1 []).
Proof.
  intros Hv Hg Hbig r1 im1. subst im1 r1.
  destruct (Z.ltb_spec 16384 (width im)) as [Hw | Hw].
  - rewrite (run_guard_width im dstWidth dstHeight imageSizeLimit Hv Hg Hw).
    cbn [fst snd st_image]. repeat split. now apply run_noop.
  - assert (Hh : 16384 < height im) by lia.
    rewrite (run_guard_height im dstWidth dstHeight imageSizeLimit
               Hv Hg Hw Hh).
    cbn [fst snd st_image]. repeat split. now apply run_noop.
Qed.

(** X6. With an allocator that leaves the declared width and height alone,
    a validated call that succeeds leaves the image with the destination
    dimensions, and the same request made again, under any limit, is a
    no-op. *)
Theorem rescale_twice_is_rescale_once (im : avifImage)
    (dstWidth dstHeight imageSizeLimit imageSizeLimit' : Z) :
  (forall log im0 planes,
     width (allocatePlanes log im0 planes) = width im0 /\
     height (allocatePlanes log im0 planes) = height im0) ->
  passes_validation im dstWidth dstHeight imageSizeLimit ->
  fst (run_avifImageScale im dstWidth dstHeight imageSizeLimit) = AVIF_TRUE ->
  let im' := st_image (snd (run_avifImageScale im dstWidth dstHeight
                              imageSizeLimit)) in
  width im' = dstWidth /\ height im' = dstHeight /\
  run_avifImageScale im' dstWidth dstHeight imageSizeLimit'
  = (AVIF_TRUE, mkState im' []).
Proof.
  intros Halloc Hv Hok im'. subst im'.
  rewrite (run_success_validated im dstWidth dstHeight imageSizeLimit Hv Hok).
  cbn [snd st_image].
  assert (Hdims : width (after_alpha im dstWidth dstHeight) = dstWidth /\
                  height (after_alpha im dstWidth dstHeight) = dstHeight).
  { unfold after_alpha, after_yuv.
    destruct (ptr_set (alphaPlane im)),
      (ptr_set (aget (yuvPlanes im) AVIF_CHAN_Y));
      repeat match goal with
             | |- context [width (allocatePlanes ?l ?i ?p)] =>
                 rewrite (proj1 (Halloc l i p))
             | |- context [height (allocatePlanes ?l ?i ?p)] =>
                 rewrite (proj2 (Halloc l i p))
             end; split; reflexivity. }
  destruct Hdims as [Hw Hh]. repeat split; auto. now apply run_noop.
Qed.

(** X7. Among limits that let a request through the limit plays no part:
    raising the limit never rejects a request that passed, and the call then
    does exactly what it did under the lower limit. *)
Theorem limit_only_gates (im : avifImage)
    (dstWidth dstHeight imageSizeLimit imageSizeLimit' : Z) :
  is_uint32 dstHeight ->
  imageSizeLimit <= imageSizeLimit' ->
  exceeds_limit dstWidth dstHeight imageSizeLimit = false ->
  exceeds_limit dstWidth dstHeight imageSizeLimit' = false /\
  run_avifImageScale im dstWidth dstHeight imageSizeLimit'
  = run_avifImageScale im dstWidth dstHeight imageSizeLimit.
Proof.
  unfold is_uint32. intros Hh Hle Hadm.
  assert (Hadm' : exceeds_limit dstWidth dstHeight imageSizeLimit' = false).
  { unfold exceeds_limit in *. apply Z.ltb_ge in Hadm. apply Z.ltb_ge.
    destruct (Z.eq_dec dstHeight 0) as [-> | Hnz].
    - now rewrite Z.div_0_r in *.
    - etransitivity; [exact Hadm |]. apply Z.div_le_mono; lia. }
  split; [exact Hadm' |]. apply run_limit_irrelevant. congruence.
Qed.

(** X8. The call reads and releases only buffers that the image presented
    on entry, never a null pointer; and a buffer is released only when the
    ownership flag of its plane group was set on entry.  In particular an
    image that owns nothing has nothing released. *)
Theorem only_entry_buffers_touched (im : avifImage)
    (dstWidth dstHeight imageSizeLimit : Z) :
  let log := st_log (snd (run_avifImageScale im dstWidth dstHeight
                            imageSizeLimit)) in
  (forall e src, In e log -> resample_source e = Some src ->
     In src (present_buffers im) /\ src <> NULL) /\
  (forall p, In (EvFree p) log ->
     In p (present_buffers im) /\ p <> NULL /\
     ((imageOwnsYUVPlanes im = true /\ exists i, p = aget (yuvPlanes im) i)
      \/ (imageOwnsAlphaPlane im = true /\ p = alphaPlane im))) /\
  (imageOwnsYUVPlanes im = false -> imageOwnsAlphaPlane im = false ->
   forall p, ~ In (EvFree p) log).
Proof.
  intros log.
  assert (Hfree : forall p, In (EvFree p) log ->
     In p (present_buffers im) /\ p <> NULL /\
     ((imageOwnsYUVPlanes im = true /\ exists i, p = aget (yuvPlanes im) i)
      \/ (imageOwnsAlphaPlane im = true /\ p = alphaPlane im))).
  { subst log. intros p Hin.
    destruct (run_log_shape im dstWidth dstHeight imageSizeLimit)
      as [E | [(fmt & args & E) | E]]; rewrite E in Hin.
    - destruct Hin.
    - destruct Hin as [H | []]. discriminate H.
    - apply in_app_or in Hin. destruct Hin as [Hin | Hin].
      + apply in_yuv_group_calls in Hin.
        destruct Hin as (_ & [H | (i & Hi & [H | [Hown H]])]);
          try discriminate H.
        injection H as ->.
        split; [now apply present_buffers_in_yuv |].
        split; [now apply ptr_set_not_NULL |]. left. eauto.
      + apply in_alpha_calls in Hin.
        destruct Hin as (Ha & [H | [H | [Hown H]]]); try discriminate H.
        injection H as ->.
        split; [now apply present_buffers_in_alpha |].
        split; [now apply ptr_set_not_NULL |]. right. auto. }
  split; [| split; [exact Hfree |]].
  - subst log. intros e src Hin Hsrc.
    destruct (run_log_shape im dstWidth dstHeight imageSizeLimit)
      as [E | [(fmt & args & E) | E]]; rewrite E in Hin.
    + destruct Hin.
    + destruct Hin as [<- | []]. discriminate Hsrc.
    + apply in_app_or in Hin. destruct Hin as [Hin | Hin].
      * apply in_yuv_group_calls in Hin.
        destruct Hin as (_ & [-> | (i & Hi & [H | [_ ->]])]);
          try discriminate Hsrc.
        rewrite H in Hsrc. injection Hsrc as <-.
        split; [now apply present_buffers_in_yuv | now apply ptr_set_not_NULL].
      * apply in_alpha_calls in Hin.
        destruct Hin as (Ha & [-> | [H | [_ ->]]]); try discriminate Hsrc.
        rewrite H in Hsrc. injection Hsrc as <-.
        split; [now apply present_buffers_in_alpha
               | now apply ptr_set_not_NULL].
  - intros Hy Ha p Hin. destruct (Hfree p Hin) as (_ & _ & [[H _] | [H _]]);
      congruence.
Qed.

Lemma no_read_after_free_sound (log : list Event) :
  no_read_after_free log = true ->
  forall before p after,
    log = before ++ EvFree p :: after ->
    forall e, In e after -> reads p e = false.
Proof.
  intros Hok before. revert log Hok.
  induction before as [| b before IH]; intros log Hok p after -> e Hin.
  - cbn in Hok. apply andb_true_iff in Hok. destruct Hok as [Hall _].
    rewrite forallb_forall in Hall. specialize (Hall e Hin).
    now apply negb_true_iff in Hall.
  - assert (Hok' : no_read_after_free (before ++ EvFree p :: after) = true).
    { cbn [app no_read_after_free] in Hok. destruct b; auto.
      apply andb_true_iff in Hok. tauto. }
    exact (IH _ Hok' p after eq_refl e Hin).
Qed.

Lemma scaling_no_read_after_free (im : avifImage) (dstWidth dstHeight : Z) :
  NoDup (present_buffers im) ->
  no_read_after_free
    (yuv_group_calls im dstWidth dstHeight ++ alpha_calls im dstWidth dstHeight)
  = true.
Proof.
  unfold present_buffers, alpha_calls, yuv_group_calls, yuv_plane_calls,
    yuv_indices, release_call.
  generalize (after_alpha im dstWidth dstHeight) as im2.
  generalize (after_yuv im dstWidth dstHeight) as im1.
  destruct im as [w h d f [pY pU pV] [rY rU rV] oy pa ra oa].
  cbn [yuvPlanes yuvRowBytes alphaPlane alphaRowBytes imageOwnsYUVPlanes
       imageOwnsAlphaPlane width height aget at_Y at_U at_V filter flat_map
       is_CHAN_Y].
  intros im1 im2 Hnd. unfold resample_call.
  destruct (8 <? depth im1), (8 <? depth im2), oy, oa,
    (ptr_set pY) eqn:EY, (ptr_set pU) eqn:EU, (ptr_set pV) eqn:EV,
    (ptr_set pa) eqn:EA;
    repeat match goal with
           | H : NoDup (_ :: _) |- _ =>
               apply NoDup_cons_iff in H; destruct H
           end;
    cbn [In] in *;
    cbn [app no_read_after_free forallb reads resample_source negb andb];
    repeat match goal with
           | |- context [?a =? ?b] =>
               destruct (Z.eqb_spec a b); [exfalso; intuition congruence |]
           end;
    reflexivity.
Qed.

(** X9. No use after release: when the present buffers of the image are
    pairwise distinct, no resampling call of a run reads a buffer that the
    run has released earlier. *)
Theorem no_read_after_release (im : avifImage)
    (dstWidth dstHeight imageSizeLimit : Z) :
  NoDup (present_buffers im) ->
  forall before p after,
    st_log (snd (run_avifImageScale im dstWidth dstHeight imageSizeLimit))
    = before ++ EvFree p :: after ->
    forall e, In e after -> resample_source e <> Some p.
Proof.
  intros Hnd before p after Hlog e Hin Hsrc.
  assert (Hok : no_read_after_free
                  (st_log (snd (run_avifImageScale im dstWidth dstHeight
                                  imageSizeLimit))) = true).
  { destruct (run_log_shape im dstWidth dstHeight imageSizeLimit)
      as [-> | [(fmt & args & ->) | ->]]; try reflexivity.
    now apply scaling_no_read_after_free. }
  pose proof (no_read_after_free_sound _ Hok before p after Hlog e Hin) as Hr.
  unfold reads in Hr. rewrite Hsrc, Z.eqb_refl in Hr. discriminate Hr.
Qed.

(** X10. One allocator call per present plane group and one resampling
    call per present plane: in a validated call that succeeds, the number of
    resampling calls is the number of present YUV planes (when the luma
    plane is present) plus one for a present alpha plane, and the number of
    allocator calls is the number of present groups. *)
Theorem one_resampling_per_present_plane (im : avifImage)
    (dstWidth dstHeight imageSizeLimit : Z) :
  passes_validation im dstWidth dstHeight imageSizeLimit ->
  fst (run_avifImageScale im dstWidth dstHeight imageSizeLimit) = AVIF_TRUE ->
  let log := st_log (snd (run_avifImageScale im dstWidth dstHeight
                            imageSizeLimit)) in
  let yuv_present := ptr_set (aget (yuvPlanes im) AVIF_CHAN_Y) in
  let alpha_present := ptr_set (alphaPlane im) in
  List.length (filter is_resample log)
  = ((if yuv_present then
        List.length (filter (fun i => ptr_set (aget (yuvPlanes im) i))
                            yuv_indices)
      else 0)
     + (if alpha_present then 1 else 0))%nat
  /\ List.length (filter is_allocate log)
     = ((if yuv_present then 1 else 0) + (if alpha_present then 1 else 0))%nat.
Proof.
  intros Hv Hok log yuv_present alpha_present.
  subst log yuv_present alpha_present.
  rewrite (run_success_validated im dstWidth dstHeight imageSizeLimit Hv Hok).
  cbn [snd st_log].
  unfold alpha_calls, yuv_group_calls, yuv_plane_calls, yuv_indices,
    release_call.
  generalize (after_alpha im dstWidth dstHeight) as im2.
  generalize (after_yuv im dstWidth dstHeight) as im1.
  destruct im as [w h d f [pY pU pV] [rY rU rV] oy pa ra oa].
  cbn [yuvPlanes yuvRowBytes alphaPlane alphaRowBytes imageOwnsYUVPlanes
       imageOwnsAlphaPlane width height aget at_Y at_U at_V flat_map
       is_CHAN_Y filter].
  intros im1 im2. unfold resample_call.
  destruct (8 <? depth im1), (8 <? depth im2), oy, oa,
    (ptr_set pY), (ptr_set pU), (ptr_set pV), (ptr_set pa);
    split; reflexivity.
Qed.

Lemma resample_src_dims_call (d : Z) (src : ptr) (srcRowBytes srcW srcH : Z)
    (dst : ptr) (dstRowBytes dstW dstH : Z) :
  resample_src_dims
    (resample_call d src srcRowBytes srcW srcH dst dstRowBytes dstW dstH)
  = Some (to_int srcW, to_int srcH).
Proof. unfold resample_call. now destruct (8 <? d). Qed.

Lemma src_dims_in_yuv_group (im : avifImage) (dstWidth dstHeight : Z)
    (e : Event) (w h : Z) :
  In e (yuv_group_calls im dstWidth dstHeight) ->
  resample_src_dims e = Some (w, h) ->
  let info := avifGetPixelFormatInfo
                (yuvFormat (after_yuv im dstWidth dstHeight)) in
  (w = to_int (width im) /\ h = to_int (height im))
  \/ (w = to_int (uv_dimension (width im) (chromaShiftX info)) /\
      h = to_int (uv_dimension (height im) (chromaShiftY info))).
Proof.
  unfold yuv_group_calls.
  destruct (ptr_set (aget (yuvPlanes im) AVIF_CHAN_Y)); [| intros []].
  intros [<- | Hin] Hd; [discriminate Hd |].
  apply in_flat_map in Hin. destruct Hin as (i & _ & Hin).
  unfold yuv_plane_calls in Hin.
  destruct (ptr_set (aget (yuvPlanes im) i)); [| destruct Hin].
  destruct Hin as [<- | Hin].
  - rewrite resample_src_dims_call in Hd. injection Hd as <- <-.
    destruct i; cbn [is_CHAN_Y]; auto.
  - apply in_release_call in Hin. destruct Hin as [_ ->]. discriminate Hd.
Qed.

Lemma src_dims_in_alpha (im : avifImage) (dstWidth dstHeight : Z)
    (e : Event) (w h : Z) :
  In e (alpha_calls im dstWidth dstHeight) ->
  resample_src_dims e = Some (w, h) ->
  w = to_int (width im) /\ h = to_int (height im).
Proof.
  unfold alpha_calls.
  destruct (ptr_set (alphaPlane im)); [| intros []].
  intros [<- | [<- | Hin]] Hd; [discriminate Hd | |].
  - rewrite resample_src_dims_call in Hd. now injection Hd as <- <-.
  - apply in_release_call in Hin. destruct Hin as [_ ->]. discriminate Hd.
Qed.

Lemma to_int_within_guard (z : Z) :
  0 <= z <= 16384 -> 0 <= to_int z <= 16384.
Proof.
  intros H. rewrite to_int_small; [exact H | unfold INT_MAX; lia].
Qed.

Lemma uv_dimension_within_guard (dim shift : Z) :
  0 <= dim <= 16384 -> 0 <= shift <= 31 ->
  0 <= uv_dimension dim shift <= 16384.
Proof.
  intros Hd Hs. unfold uv_dimension, wrap32.
  rewrite Z.mod_small by lia. rewrite Z.shiftr_div_pow2 by lia.
  destruct (Z.eq_dec shift 0) as [-> | Hnz].
  - change (2 ^ 0) with 1. rewrite Z.div_1_r. lia.
  - assert (Hpow : 2 ^ 1 <= 2 ^ shift) by (apply Z.pow_le_mono_r; lia).
    change (2 ^ 1) with 2 in Hpow.
    split; [apply Z.div_pos; lia |].
    transitivity ((dim + shift) / 2).
    + apply Z.div_le_compat_l; lia.
    + apply Z.div_le_upper_bound; lia.
Qed.

(** X11. What the guard of line 73 buys: when the chroma shifts of the
    format table are valid shift counts (0 to 31) and the image dimensions
    are not negative, every resampling call of every run is given a source
    width and a source height between 0 and 16384. *)
Theorem resampled_sources_within_guard (im : avifImage)
    (dstWidth dstHeight imageSizeLimit : Z) :
  0 <= width im -> 0 <= height im ->
  (forall format,
     0 <= chromaShiftX (avifGetPixelFormatInfo format) <= 31 /\
     0 <= chromaShiftY (avifGetPixelFormatInfo format) <= 31) ->
  forall e w h,
    In e (st_log (snd (run_avifImageScale im dstWidth dstHeight
                         imageSizeLimit))) ->
    resample_src_dims e = Some (w, h) ->
    0 <= w <= 16384 /\ 0 <= h <= 16384.
Proof.
  intros Hw Hh Hshift e w h Hin Hd.
  destruct (run_classify im dstWidth dstHeight imageSizeLimit)
    as [(_ & _ & E) | [(_ & _ & E) | [(_ & _ & _ & _ & E)
       | [(_ & _ & _ & E) | [(_ & _ & _ & _ & E) | (_ & Hg & E)]]]]];
    rewrite E in Hin; cbn [snd st_log] in Hin;
    try (destruct Hin as [<- | []]; discriminate Hd);
    try (destruct Hin).
  unfold guarded in Hg.
  apply in_app_or in Hin. destruct Hin as [Hin | Hin].
  - assert (HY : ptr_set (aget (yuvPlanes im) AVIF_CHAN_Y) = true)
      by (now apply in_yuv_group_calls in Hin).
    rewrite HY in Hg. destruct (Hg eq_refl) as [Bw Bh].
    destruct (src_dims_in_yuv_group im dstWidth dstHeight e w h Hin Hd)
      as [[-> ->] | [-> ->]];
      [split; apply to_int_within_guard; lia |].
    split; apply to_int_within_guard, uv_dimension_within_guard; try lia;
      apply Hshift.
  - assert (HA : ptr_set (alphaPlane im) = true)
      by (now apply in_alpha_calls in Hin).
    rewrite HA, orb_true_r in Hg. destruct (Hg eq_refl) as [Bw Bh].
    destruct (src_dims_in_alpha im dstWidth dstHeight e w h Hin Hd)
      as [-> ->].
    split; apply to_int_within_guard; lia.
Qed.

(** X12. The two plane groups are handled independently.  In a validated
    call that succeeds, an image without luma buffer but with an alpha
    buffer has its alpha plane allocated on the detached image, resampled at
    full resolution (strides and dimensions reaching libyuv as [int]s) and
    released if owned, and nothing else happens; an
    image with a luma buffer and no alpha buffer is left as the YUV
    allocator made it, the YUV allocation being the first call and no alpha
    allocation being made. *)
Theorem plane_groups_independent (im : avifImage)
    (dstWidth dstHeight imageSizeLimit : Z) :
  passes_validation im dstWidth dstHeight imageSizeLimit ->
  fst (run_avifImageScale im dstWidth dstHeight imageSizeLimit) = AVIF_TRUE ->
  let r := run_avifImageScale im dstWidth dstHeight imageSizeLimit in
  (ptr_set (aget (yuvPlanes im) AVIF_CHAN_Y) = false ->
   ptr_set (alphaPlane im) = true ->
   let im2 := allocatePlanes [] (detached im dstWidth dstHeight)
                AVIF_PLANES_A in
   r = (AVIF_TRUE,
        mkState im2
          (EvAllocatePlanes AVIF_PLANES_A
           :: resample_call (depth im2) (alphaPlane im) (alphaRowBytes im)
                (width im) (height im) (alphaPlane im2) (alphaRowBytes im2)
                dstWidth dstHeight
           :: release_call (imageOwnsAlphaPlane im) (alphaPlane im)))) /\
  (ptr_set (aget (yuvPlanes im) AVIF_CHAN_Y) = true ->
   ptr_set (alphaPlane im) = false ->
   st_image (snd r)
   = allocatePlanes [] (detached im dstWidth dstHeight) AVIF_PLANES_YUV /\
   hd_error (st_log (snd r)) = Some (EvAllocatePlanes AVIF_PLANES_YUV) /\
   ~ In (EvAllocatePlanes AVIF_PLANES_A) (st_log (snd r))).
Proof.
  intros Hv Hok r. subst r.
  rewrite (run_success_validated im dstWidth dstHeight imageSizeLimit Hv Hok).
  split.
  - intros HY HA.
    unfold after_alpha, alpha_calls, after_alpha, after_yuv, yuv_group_calls.
    now rewrite HY, HA.
  - intros HY HA. cbn [snd st_image st_log].
    split; [| split].
    + unfold after_alpha, after_yuv. now rewrite HY, HA.
    + unfold yuv_group_calls. now rewrite HY.
    + intros Hin. apply in_app_or in Hin. destruct Hin as [Hin | Hin].
      * apply in_yuv_group_calls in Hin.
        destruct Hin as (_ & [H | (i & _ & [H | [_ H]])]); discriminate H.
      * apply in_alpha_calls in Hin. destruct Hin as [HA' _]. congruence.
Qed.

End WithCollaborators.

(** X13. Within the [uint32_t] range a chroma plane is never empty and never
    wider than the luma plane, and it covers the luma plane: for a chroma
    shift of 0 or 1 and a luma dimension of at least 1 whose sum with the
    shift fits [uint32_t], the chroma dimension [c] satisfies
    [1 <= c <= dim] and [dim <= c * 2^shift < dim + 2^shift]. *)
Theorem chroma_dimension_covers_luma (dim shift : Z) :
  shift = 0 \/ shift = 1 -> 1 <= dim -> dim + shift <= UINT32_MAX ->
  1 <= uv_dimension dim shift <= dim /\
  dim <= uv_dimension dim shift * 2 ^ shift < dim + 2 ^ shift.
Proof.
  unfold UINT32_MAX, uv_dimension, wrap32. intros Hs Hd Hfit.
  rewrite Z.mod_small by lia. rewrite Z.shiftr_div_pow2 by lia.
  destruct Hs as [-> | ->].
  - change (2 ^ 0) with 1. rewrite Z.add_0_r, Z.div_1_r. lia.
  - change (2 ^ 1) with 2.
    pose proof (Z.div_mod (dim + 1) 2 ltac:(lia)) as Hdm.
    pose proof (Z.mod_pos_bound (dim + 1) 2 ltac:(lia)) as Hmod.
    lia.
Qed.

(** X14. The wrap-around at the top of the range: for a [uint32_t] luma
    dimension and a chroma shift of 1 the chroma dimension is 0 exactly when
    the luma dimension is 0 or [UINT32_MAX], the sum [dim + 1] then wrapping
    to 0; and a destination width of [UINT32_MAX] passes the limit
    test for height 1 and limit [UINT32_MAX]. *)
Theorem chroma_dimension_wraps_to_zero (dim : Z) :
  is_uint32 dim ->
  (uv_dimension dim 1 = 0 <-> dim = 0 \/ dim = UINT32_MAX) /\
  exceeds_limit UINT32_MAX 1 UINT32_MAX = false.
Proof.
  unfold is_uint32, UINT32_MAX, uv_dimension, wrap32. intros Hd.
  split; [| reflexivity].
  rewrite Z.shiftr_div_pow2 by lia. change (2 ^ 1) with 2.
  destruct (Z.eq_dec dim (2 ^ 32 - 1)) as [-> | Hne].
  - split; [right; reflexivity | reflexivity].
  - rewrite Z.mod_small by lia.
    pose proof (Z.div_mod (dim + 1) 2 ltac:(lia)) as Hdm.
    pose proof (Z.mod_pos_bound (dim + 1) 2 ltac:(lia)) as Hmod.
    split; intros H; [left; lia |].
    destruct H as [-> | ->]; [reflexivity | lia].
Qed.

(** C8. In the build without libyuv every call fails with the
    unimplemented-backend diagnostic and leaves the image exactly as it was;
    neither the returned flag nor the diagnostic depends on the image, the
    destination dimensions or the limit. *)
Theorem nolibyuv_fails_without_touching_image
    (im : avifImage) (log : list Event) (dstWidth dstHeight imageSizeLimit : Z) :
  NoLibyuv.avifImageScale dstWidth dstHeight imageSizeLimit (mkState im log)
  = (AVIF_FALSE, mkState im (log ++ [EvDiagnosticsPrintf msg_unimplemented []]))
  /\ forall (im' : avifImage) (dstWidth' dstHeight' imageSizeLimit' : Z),
       let r := NoLibyuv.avifImageScale dstWidth dstHeight imageSizeLimit
                  (mkState im log) in
       let r' := NoLibyuv.avifImageScale dstWidth' dstHeight' imageSizeLimit'
                   (mkState im' log) in
       fst r' = fst r /\ st_log (snd r') = st_log (snd r).
Proof. split; [reflexivity | intros; split; reflexivity]. Qed.

(** C6 (amended). The chroma dimension the rescaler computes is
    [(dim + shift) >> shift] in [uint32_t]; for a chroma shift of 0 or 1 and
    a luma dimension whose sum with the shift still fits [uint32_t], it is
    [dim] divided by [2^shift] rounded up.  In every validated call that
    succeeds on an image with its luma plane, each present chroma plane is
    resampled by a call whose source width and height are this expression
    of the image's width with the format's horizontal shift and of its
    height with the vertical shift, and whose destination width and height
    are the same expression of the destination dimensions (as [int]s, the
    way libyuv receives them).  A 7x5 luma plane with shift 1 on both axes
    gives 4x3 chroma planes, and rescaling the 7x5 sample image resamples
    its chroma planes as 4x3 planes. *)
Theorem chroma_dimension_rounds_up (dim shift : Z) :
  is_uint32 dim -> shift = 0 \/ shift = 1 -> dim + shift <= UINT32_MAX ->
  uv_dimension dim shift = Z.shiftr (dim + shift) shift /\
  uv_dimension dim shift = div_round_up dim shift /\
  uv_dimension 7 1 = 4 /\ uv_dimension 5 1 = 3 /\
  (forall (avifGetPixelFormatInfo : avifPixelFormat -> avifPixelFormatInfo)
          (allocatePlanes :
             list Event -> avifImage -> avifPlanesFlags -> avifImage)
          (im : avifImage) (dstWidth dstHeight imageSizeLimit : Z)
          (i : avifChannelIndex),
     passes_validation im dstWidth dstHeight imageSizeLimit ->
     fst (run_avifImageScale avifGetPixelFormatInfo allocatePlanes
            im dstWidth dstHeight imageSizeLimit) = AVIF_TRUE ->
     ptr_set (aget (yuvPlanes im) AVIF_CHAN_Y) = true ->
     i <> AVIF_CHAN_Y ->
     ptr_set (aget (yuvPlanes im) i) = true ->
     let info :=
       avifGetPixelFormatInfo
         (yuvFormat (allocatePlanes [] (detached im dstWidth dstHeight)
                       AVIF_PLANES_YUV)) in
     exists call,
       In call (st_log (snd (run_avifImageScale avifGetPixelFormatInfo
                               allocatePlanes im dstWidth dstHeight
                               imageSizeLimit))) /\
       resample_source call = Some (aget (yuvPlanes im) i) /\
       resample_src_dims call
       = Some (to_int (uv_dimension (width im) (chromaShiftX info)),
               to_int (uv_dimension (height im) (chromaShiftY info))) /\
       resample_dst_dims call
       = Some (to_int (uv_dimension dstWidth (chromaShiftX info)),
               to_int (uv_dimension dstHeight (chromaShiftY info)))) /\
  st_log (snd (run_avifImageScale sample_formatInfo sample_allocatePlanes
                 sample_image 14 10 1000))
  = [EvAllocatePlanes AVIF_PLANES_YUV;
     EvScalePlane 100 7 7 5 4096 14 14 10 kFilterBox; EvFree 100;
     EvScalePlane 200 4 4 3 8192 7 7 5 kFilterBox; EvFree 200;
     EvScalePlane 300 4 4 3 12288 7 7 5 kFilterBox; EvFree 300;
     EvAllocatePlanes AVIF_PLANES_A;
     EvScalePlane 400 7 7 5 16384 14 14 10 kFilterBox; EvFree 400].
Proof.
  intros Hd Hs Hfit.
  assert (Hmod : (dim + shift) mod 2 ^ 32 = dim + shift)
    by (unfold is_uint32, UINT32_MAX in *; apply Z.mod_small; lia).
  split; [unfold uv_dimension, wrap32; now rewrite Hmod |].
  split.
  { unfold uv_dimension, wrap32, div_round_up. rewrite Hmod.
    rewrite Z.shiftr_div_pow2 by lia.
    destruct Hs as [-> | ->]; f_equal; lia. }
  split; [reflexivity |]. split; [reflexivity |]. split; [| reflexivity].
  intros fi al im dstWidth dstHeight imageSizeLimit i Hv Hok HY Hchroma Hi info.
  rewrite (run_success_validated fi al im dstWidth dstHeight imageSizeLimit
             Hv Hok).
  cbn [snd st_log].
  pose proof (in_yuv_group_plane_call fi al im dstWidth dstHeight i HY Hi)
    as Hin.
  cbv zeta in Hin. fold info in Hin.
  eexists. split; [apply in_or_app; left; exact Hin |].
  split; [apply resample_source_call |].
  destruct i; [contradiction | |]; cbn [is_CHAN_Y]; apply resample_dims_call.
Qed.

(** ** Counterexamples to the claims as first stated *)

Ltac validated_request :=
  unfold passes_validation; cbn; repeat split; try lia; try reflexivity.

Ltac distinct_addresses :=
  cbn; repeat (apply NoDup_cons; [cbn; intuition discriminate |]);
  apply NoDup_nil.

Ltac planes_together :=
  let i := fresh in let j := fresh in intros i j; destruct i, j; reflexivity.

(** C6 as stated fails: with a chroma shift of 2 a luma dimension of 1 gives
    [(1 + 2) >> 2 = 0], while 1 divided by 4 rounded up is 1. *)
Lemma chroma_shift_two_rounds_down :
  uv_dimension 1 2 = 0 /\ div_round_up 1 2 = 1 /\
  uv_dimension 1 2 <> div_round_up 1 2.
Proof. repeat split; try reflexivity. discriminate. Qed.

(** C7 as stated fails: with 8-bit samples and a luma row-byte count of
    [UINT32_MAX], the stride [ScalePlane] receives for the luma plane is
    -1, not the row-byte count. *)
Lemma huge_row_bytes_become_negative_stride :
  depth huge_stride_image = 8 /\
  aget (yuvRowBytes huge_stride_image) AVIF_CHAN_Y = 4294967295 /\
  passes_validation huge_stride_image 14 10 1000 /\
  run_avifImageScale sample_formatInfo sample_allocatePlanes
    huge_stride_image 14 10 1000
  = (AVIF_TRUE,
     mkState
       (mkImage 14 10 8 3 (mkArray3 4096 8192 12288) (mkArray3 14 7 7)
                AVIF_TRUE 16384 14 AVIF_TRUE)
       [EvAllocatePlanes AVIF_PLANES_YUV;
        EvScalePlane 100 (-1) 7 5 4096 14 14 10 kFilterBox; EvFree 100;
        EvScalePlane 200 4 4 3 8192 7 7 5 kFilterBox; EvFree 200;
        EvScalePlane 300 4 4 3 12288 7 7 5 kFilterBox; EvFree 300;
        EvAllocatePlanes AVIF_PLANES_A;
        EvScalePlane 400 7 7 5 16384 14 14 10 kFilterBox; EvFree 400]) /\
  ~ In (EvScalePlane 100 4294967295 7 5 4096 14 14 10 kFilterBox)
       (st_log (snd (run_avifImageScale sample_formatInfo sample_allocatePlanes
                       huge_stride_image 14 10 1000))).
Proof.
  split; [reflexivity |]. split; [reflexivity |].
  split; [validated_request |]. split; [reflexivity |].
  cbn. intuition discriminate.
Qed.

(** ** Images outside the data-model invariants *)

(** When two planes share a buffer, it is handed to [avifFree] once for
    each of them. *)
Example aliased_chroma_released_twice :
  st_log (snd (run_avifImageScale sample_formatInfo sample_allocatePlanes
                 aliased_chroma_image 4 4 100))
  = [EvAllocatePlanes AVIF_PLANES_YUV;
     EvScalePlane 100 8 8 8 4096 4 4 4 kFilterBox; EvFree 100;
     EvScalePlane 200 4 4 4 8192 2 2 2 kFilterBox; EvFree 200;
     EvScalePlane 200 4 4 4 12288 2 2 2 kFilterBox; EvFree 200]
  /\ release_count 200
       (st_log (snd (run_avifImageScale sample_formatInfo sample_allocatePlanes
                       aliased_chroma_image 4 4 100))) = 2%nat.
Proof. split; reflexivity. Qed.

(** When a chroma buffer is present without the luma buffer, the call
    leaves it alone: it is neither resampled nor released. *)
Example chroma_without_luma_left_alone :
  ~ yuv_planes_together chroma_and_alpha_image /\
  st_log (snd (run_avifImageScale sample_formatInfo sample_allocatePlanes
                 chroma_and_alpha_image 4 4 100))
  = [EvAllocatePlanes AVIF_PLANES_A;
     EvScalePlane 400 8 8 8 16384 4 4 4 kFilterBox; EvFree 400].
Proof.
  split; [| reflexivity].
  intros Ht. specialize (Ht AVIF_CHAN_Y AVIF_CHAN_U). discriminate Ht.
Qed.

(** And when it is the only buffer of a 20000 pixels wide image, the guard
    of line 73 does not apply. *)
Example chroma_without_luma_unguarded :
  ~ yuv_planes_together chroma_only_wide_image /\
  run_avifImageScale sample_formatInfo sample_allocatePlanes
    chroma_only_wide_image 10 10 100
  = (AVIF_TRUE, mkState (detached chroma_only_wide_image 10 10) []).
Proof.
  split; [| reflexivity].
  intros Ht. specialize (Ht AVIF_CHAN_Y AVIF_CHAN_U). discriminate Ht.
Qed.

(** ** The theorems at concrete inputs *)

Lemma noop_precedes_validation_witness :
  exceeds_limit 20000 20000 0 = true /\
  guarded sample_huge_image = true /\
  16384 < width sample_huge_image /\
  fst (run_avifImageScale sample_formatInfo sample_allocatePlanes
         sample_huge_image 20000 20000 0) = AVIF_TRUE.
Proof.
  split; [reflexivity |]. split; [reflexivity |]. split; [reflexivity |].
  exact (proj1 (noop_precedes_validation sample_formatInfo sample_allocatePlanes
                  sample_huge_image 20000 20000 0 eq_refl eq_refl)).
Defined.

Lemma zero_destination_rejected_witness :
  run_avifImageScale sample_formatInfo sample_allocatePlanes sample_image 0 5 1000
  = (AVIF_FALSE,
     mkState sample_image [EvDiagnosticsPrintf msg_invalid_dst [0; 5]]).
Proof.
  apply (zero_destination_rejected sample_formatInfo sample_allocatePlanes
           sample_image 0 5 1000).
  - left. cbn. lia.
  - left. reflexivity.
Defined.

Lemma limit_test_is_exact_product_test_witness :
  In (EvDiagnosticsPrintf msg_too_large [100; 100])
     (st_log (snd (run_avifImageScale sample_formatInfo sample_allocatePlanes
                     sample_image 100 100 9999))).
Proof.
  assert (Hu : forall z, 0 <= z <= 10000 -> is_uint32 z)
    by (unfold is_uint32, UINT32_MAX; lia).
  destruct (limit_test_is_exact_product_test sample_formatInfo
              sample_allocatePlanes sample_image 100 100 9999)
    as (_ & Hrun & _); try (apply Hu; lia); try lia.
  apply Hrun; [left; cbn; lia | lia].
Defined.

Lemma guard_failure_leaves_detached_image_witness :
  let r := run_avifImageScale sample_formatInfo sample_allocatePlanes
             sample_huge_image 10 10 100 in
  fst r = AVIF_FALSE /\
  width (st_image (snd r)) = 10 /\ height (st_image (snd r)) = 10 /\
  alphaPlane (st_image (snd r)) = NULL.
Proof.
  destruct (guard_failure_leaves_detached_image sample_formatInfo
              sample_allocatePlanes sample_huge_image 10 10 100)
    as (H1 & H2 & H3 & _ & H5 & _).
  - planes_together.
  - discriminate.
  - left. cbn. lia.
  - validated_request.
  - cbv zeta. auto.
Defined.

Lemma chroma_dimension_rounds_up_witness :
  uv_dimension 7 1 = div_round_up 7 1.
Proof.
  apply (chroma_dimension_rounds_up 7 1).
  - unfold is_uint32, UINT32_MAX. lia.
  - right. reflexivity.
  - unfold UINT32_MAX. lia.
Defined.


Lemma bit_depth_selects_entry_point_witness :
  exists srcW srcH dstW dstH,
    In (EvScalePlane_16 400 7 srcW srcH 16384 14 dstW dstH kFilterBox)
       (st_log (snd (run_avifImageScale sample_formatInfo sample_allocatePlanes
                       sample_image_borrowed 14 10 1000))).
Proof.
  destruct (bit_depth_selects_entry_point sample_formatInfo sample_allocatePlanes
              sample_image_borrowed 14 10 1000) as (_ & Halpha & _).
  - validated_request.
  - reflexivity.
  - destruct (Halpha eq_refl) as (srcW & srcH & dstW & dstH & Hwide & _).
    + unfold is_uint32, UINT32_MAX. cbn. lia.
    + unfold is_uint32, UINT32_MAX. cbn. lia.
    + exists srcW, srcH, dstW, dstH. apply Hwide. cbn. lia.
Defined.

Lemma yuv_group_gated_by_luma_witness :
  (List.length
     (filter is_resample
        (st_log (snd (run_avifImageScale sample_formatInfo sample_allocatePlanes
                        chroma_and_alpha_image 4 4 100)))) <= 1)%nat
  /\ ~ In (EvAllocatePlanes AVIF_PLANES_YUV)
         (st_log (snd (run_avifImageScale sample_formatInfo sample_allocatePlanes
                         chroma_and_alpha_image 4 4 100))).
Proof.
  destruct (yuv_group_gated_by_luma sample_formatInfo sample_allocatePlanes
              chroma_and_alpha_image 4 4 100) as (Hluma & _).
  destruct (Hluma eq_refl) as (Hcount & Hev).
  split; [exact Hcount |].
  intros Hin. exact (proj1 (Hev _ Hin) eq_refl).
Defined.

(** ** The further properties at concrete inputs *)

Lemma unvalidated_request_leaves_image_witness :
  st_image (snd (run_avifImageScale sample_formatInfo sample_allocatePlanes
                   sample_image 0 5 1000)) = sample_image.
Proof.
  destruct (unvalidated_request_leaves_image sample_formatInfo
              sample_allocatePlanes sample_image 0 5 1000) as (H & _).
  - intros (_ & Hz & _). now apply Hz.
  - exact H.
Defined.

Lemma guard_reports_width_first_witness :
  In (EvDiagnosticsPrintf msg_invalid_width [20000; 10])
     (st_log (snd (run_avifImageScale sample_formatInfo sample_allocatePlanes
                     sample_huge_image 10 10 100)))
  /\ ~ In (EvDiagnosticsPrintf msg_invalid_height [20000; 10])
          (st_log (snd (run_avifImageScale sample_formatInfo
                          sample_allocatePlanes sample_huge_image 10 10 100))).
Proof.
  destruct (guard_reports_width_first sample_formatInfo sample_allocatePlanes
              sample_huge_image 10 10 100) as (Hw & Hh).
  - validated_request.
  - reflexivity.
  - split.
    + apply Hw. cbn. lia.
    + intros Hin. apply Hh in Hin. cbn in Hin. lia.
Defined.

Lemma retry_after_guard_failure_is_noop_witness :
  fst (run_avifImageScale sample_formatInfo sample_allocatePlanes
         sample_huge_image 10 10 100) = AVIF_FALSE /\
  fst (run_avifImageScale sample_formatInfo sample_allocatePlanes
         (st_image (snd (run_avifImageScale sample_formatInfo
                           sample_allocatePlanes sample_huge_image 10 10 100)))
         10 10 100) = AVIF_TRUE.
Proof.
  destruct (retry_after_guard_failure_is_noop sample_formatInfo
              sample_allocatePlanes sample_huge_image 10 10 100)
    as (Hfail & _ & Hretry).
  - validated_request.
  - reflexivity.
  - left. cbn. lia.
  - split; [exact Hfail |]. cbv zeta in Hretry. now rewrite Hretry.
Defined.

Lemma rescale_twice_is_rescale_once_witness :
  fst (run_avifImageScale sample_formatInfo sample_allocatePlanes
         (st_image (snd (run_avifImageScale sample_formatInfo
                           sample_allocatePlanes sample_image 14 10 1000)))
         14 10 0) = AVIF_TRUE.
Proof.
  destruct (rescale_twice_is_rescale_once sample_formatInfo
              sample_allocatePlanes sample_image 14 10 1000 0)
    as (_ & _ & Hagain).
  - intros log im0 []; split; reflexivity.
  - validated_request.
  - reflexivity.
  - cbv zeta in Hagain. now rewrite Hagain.
Defined.

Lemma limit_only_gates_witness :
  run_avifImageScale sample_formatInfo sample_allocatePlanes
    sample_image 14 10 2000
  = run_avifImageScale sample_formatInfo sample_allocatePlanes
      sample_image 14 10 1000.
Proof.
  apply (limit_only_gates sample_formatInfo sample_allocatePlanes
           sample_image 14 10 1000 2000).
  - unfold is_uint32, UINT32_MAX. lia.
  - lia.
  - reflexivity.
Defined.

Lemma no_read_after_release_witness :
  resample_source (EvScalePlane 200 4 4 3 8192 7 7 5 kFilterBox) <> Some 100
  /\ resample_source (EvScalePlane 400 7 7 5 16384 14 14 10 kFilterBox)
     <> Some 100.
Proof.
  assert (Hnd : NoDup (present_buffers sample_image)) by distinct_addresses.
  pose proof (no_read_after_release sample_formatInfo sample_allocatePlanes
                sample_image 14 10 1000 Hnd
                [EvAllocatePlanes AVIF_PLANES_YUV;
                 EvScalePlane 100 7 7 5 4096 14 14 10 kFilterBox]
                100
                [EvScalePlane 200 4 4 3 8192 7 7 5 kFilterBox; EvFree 200;
                 EvScalePlane 300 4 4 3 12288 7 7 5 kFilterBox; EvFree 300;
                 EvAllocatePlanes AVIF_PLANES_A;
                 EvScalePlane 400 7 7 5 16384 14 14 10 kFilterBox; EvFree 400]
                eq_refl) as Hsafe.
  split; apply Hsafe; cbn; auto 10.
Defined.

Lemma one_resampling_per_present_plane_witness :
  List.length
    (filter is_resample
       (st_log (snd (run_avifImageScale sample_formatInfo sample_allocatePlanes
                       sample_image 14 10 1000)))) = 4%nat
  /\ List.length
       (filter is_allocate
          (st_log (snd (run_avifImageScale sample_formatInfo
                          sample_allocatePlanes sample_image 14 10 1000))))
     = 2%nat.
Proof.
  apply (one_resampling_per_present_plane sample_formatInfo
           sample_allocatePlanes sample_image 14 10 1000).
  - validated_request.
  - reflexivity.
Defined.

Lemma resampled_sources_within_guard_witness :
  In (EvScalePlane 200 4 4 3 8192 7 7 5 kFilterBox)
     (st_log (snd (run_avifImageScale sample_formatInfo sample_allocatePlanes
                     sample_image 14 10 1000)))
  /\ (0 <= 4 <= 16384 /\ 0 <= 3 <= 16384).
Proof.
  assert (Hin : In (EvScalePlane 200 4 4 3 8192 7 7 5 kFilterBox)
                  (st_log (snd (run_avifImageScale sample_formatInfo
                                  sample_allocatePlanes sample_image
                                  14 10 1000))))
    by (cbn; auto 10).
  split; [exact Hin |].
  apply (resampled_sources_within_guard sample_formatInfo sample_allocatePlanes
           sample_image 14 10 1000) with
    (e := EvScalePlane 200 4 4 3 8192 7 7 5 kFilterBox).
  - cbn. lia.
  - cbn. lia.
  - intros format. unfold sample_formatInfo.
    destruct (format =? 1), (format =? 2); cbn; lia.
  - exact Hin.
  - reflexivity.
Defined.

Lemma plane_groups_independent_witness :
  st_log (snd (run_avifImageScale sample_formatInfo sample_allocatePlanes
                 chroma_and_alpha_image 4 4 100))
  = [EvAllocatePlanes AVIF_PLANES_A;
     EvScalePlane 400 8 8 8 16384 4 4 4 kFilterBox; EvFree 400].
Proof.
  destruct (plane_groups_independent sample_formatInfo sample_allocatePlanes
              chroma_and_alpha_image 4 4 100) as (Halpha & _).
  - validated_request.
  - reflexivity.
  - cbv zeta in Halpha. now rewrite (Halpha eq_refl eq_refl).
Defined.

Lemma chroma_dimension_covers_luma_witness :
  1 <= uv_dimension 7 1 <= 7 /\ 7 <= uv_dimension 7 1 * 2 ^ 1 < 7 + 2 ^ 1.
Proof.
  apply (chroma_dimension_covers_luma 7 1).
  - right. reflexivity.
  - lia.
  - unfold UINT32_MAX. lia.
Defined.

Lemma chroma_dimension_wraps_to_zero_witness :
  uv_dimension UINT32_MAX 1 = 0.
Proof.
  destruct (chroma_dimension_wraps_to_zero UINT32_MAX) as (Hzero & _).
  - unfold is_uint32, UINT32_MAX. lia.
  - apply Hzero. right. reflexivity.
Defined.
